(** * keybase-bot chat client: the listener of [src/chat-client/index.ts]

    A shallow embedding of [Chat._chatListen] and of the handlers it
    attaches to the spawned [keybase chat api-listen] process, with the
    properties of the listener stated and proved over it. *)

From Stdlib Require Import List String Ascii Bool Arith Lia.
Import ListNotations.
Open Scope string_scope.

Set Warnings "-register-all".

(** ** JavaScript data *)

Module JS.

(** A decoded JSON document, as [JSON.parse] hands it to the listener, plus
    [undefined], which reading an absent property produces.  A number is
    carried by its decimal rendering: the listener never computes with one.
    An object is the list of its own properties in insertion order. *)
Inductive value : Type :=
| Undefined
| Null
| Bool (b : bool)
| Num (repr : string)
| Str (s : string)
| Arr (items : list value)
| Obj (fields : list (string * value)).

(** What a [throw] carries. *)
Inductive error : Type :=
| SyntaxError (input : string)   (* JSON.parse rejected [input] *)
| TypeError (property : string)  (* a property of null/undefined was read, or a non-function was called *)
| ErrorOf (v : value)            (* the exception of [throw new Error(v)] *)
| Failure (tag : string).        (* an exception of the host's own code *)

(** How an evaluation ends: with a value, or with a [throw]. *)
Inductive completion (A : Type) : Type :=
| Normal (a : A)
| Abrupt (e : error).
Arguments Normal {A} a.
Arguments Abrupt {A} e.

(** Evaluation in sequence: a [throw] ends it. *)
Definition andThen {A B} (c : completion A) (k : A -> completion B) : completion B :=
  match c with
  | Normal a => k a
  | Abrupt e => Abrupt e
  end.

Fixpoint lookup (k : string) (fields : list (string * value)) : option value :=
  match fields with
  | [] => None
  | (k', v) :: rest => if String.eqb k k' then Some v else lookup k rest
  end.

Definition has_key (k : string) (fields : list (string * value)) : bool :=
  match lookup k fields with Some _ => true | None => false end.

(** [o.k] for the property names the listener reads ([error], [msg],
    [sender], [username], [deviceName]): none of them is a built-in
    property of a string, a number, a boolean or an array. *)
Definition get (o : value) (k : string) : completion value :=
  match o with
  | Undefined | Null => Abrupt (TypeError k)
  | Obj fields =>
      match lookup k fields with
      | Some v => Normal v
      | None => Normal Undefined
      end
  | _ => Normal Undefined
  end.

(** [o.hasOwnProperty(k)], for a key [k] that is neither an index nor
    [length].  The method is found on the prototype unless the object has
    an own property of that name, which, coming from JSON, is not callable. *)
Definition hasOwnProperty (o : value) (k : string) : completion bool :=
  match o with
  | Undefined | Null => Abrupt (TypeError "hasOwnProperty")
  | Obj fields =>
      if has_key "hasOwnProperty" fields
      then Abrupt (TypeError "hasOwnProperty")
      else Normal (has_key k fields)
  | _ => Normal false
  end.

(** [v !== s] for a string [s]. *)
Definition strict_neq (v : value) (s : string) : bool :=
  match v with
  | Str t => negb (String.eqb t s)
  | _ => true
  end.

(** Truthiness of a [void | string] field: set, and not the empty string. *)
Definition truthy (o : option string) : bool :=
  match o with
  | Some s => negb (String.eqb s "")
  | None => false
  end.

End JS.
Import JS.

Declare Scope js_scope.
Delimit Scope js_scope with js.
Notation "x <- c ;; k" := (andThen c (fun x => k))
  (at level 61, c at next level, right associativity) : js_scope.

(** ** The client and its collaborators *)

(** [ListenOptions]; a field left out of the object literal is [None]. *)
Record ListenOptions : Type := {
  hideExploding : option bool;
  showLocal : option bool
}.

(** What [spawn] was asked to run. *)
Record ChildProcess : Type := {
  spawnfile : string;
  spawnargs : list string
}.

(** The fields of [ClientBase] the listener touches. *)
Record Chat : Type := {
  username : option string;
  devicename : option string;
  homeDir : option string;
  _spawnedProcesses : list ChildProcess
}.

(** What the listener does to the outside: a line given to the admin debug
    logger, or a call of one of the caller's two callbacks. *)
Inductive event : Type :=
| LogInfo (text : string)
| LogError (text : string)
| CallMessage (message : value)
| CallError (err : error).

(** How a callback's call ends: it returns (a promise it may return is not
    looked at; [Rejects] is a returned promise that rejects later), or it
    throws. *)
Inductive outcome : Type :=
| Returns
| Rejects (e : error)
| Throws (e : error).

(** ** The effects of a handler

    A handler runs against the client object and the state of the caller's
    own code, emits events, and ends normally or with a [throw]. *)

Module Eff.
Section WithUser.

Variable U : Type.   (* the state of the caller's code, which its callbacks read and write *)

Record world : Type := {
  this : Chat;
  user : U
}.

Definition M (A : Type) : Type := world -> list event * world * completion A.

Definition ret {A} (a : A) : M A := fun w => ([], w, Normal a).

Definition bind {A B} (m : M A) (k : A -> M B) : M B :=
  fun w =>
    match m w with
    | (tr, w1, Normal a) =>
        let '(tr2, w2, r) := k a w1 in ((tr ++ tr2)%list, w2, r)
    | (tr, w1, Abrupt e) => (tr, w1, Abrupt e)
    end.

Definition throw {A} (e : error) : M A := fun w => ([], w, Abrupt e).

Definition lift {A} (c : completion A) : M A := fun w => ([], w, c).

Definition emit (ev : event) : M unit := fun w => ([ev], w, Normal tt).

Definition get_this : M Chat := fun w => ([], w, Normal (this w)).

Definition set_this (c : Chat) : M unit :=
  fun w => ([], {| this := c; user := user w |}, Normal tt).

(** [try { body } catch (error) { handler(error) }] *)
Definition try_catch {A} (body : M A) (handler : error -> M A) : M A :=
  fun w =>
    match body w with
    | (tr, w1, Normal a) => (tr, w1, Normal a)
    | (tr, w1, Abrupt e) =>
        let '(tr2, w2, r) := handler e w1 in ((tr ++ tr2)%list, w2, r)
    end.

(** Calling a callback of the caller: the call is an event, the callback
    moves the caller's state, and a [throw] of the callback is a [throw] at
    the call site.  A returned promise is dropped. *)
Definition call {X} (mk : X -> event) (f : X -> U -> outcome * U) (x : X) : M unit :=
  fun w =>
    let '(o, u) := f x (user w) in
    let w1 := {| this := this w; user := u |} in
    match o with
    | Throws e => ([mk x], w1, Abrupt e)
    | _ => ([mk x], w1, Normal tt)
    end.

End WithUser.

Arguments this {U} w.
Arguments user {U} w.
Arguments Build_world {U} this user.
Arguments ret {U A} a.
Arguments bind {U A B} m k.
Arguments throw {U A} e.
Arguments lift {U A} c.
Arguments emit {U} ev.
Arguments get_this {U}.
Arguments set_this {U} c.
Arguments try_catch {U A} body handler.
Arguments call {U X} mk f x.

End Eff.
Import Eff.

Declare Scope eff_scope.
Delimit Scope eff_scope with eff.
Notation "x <- m ;; k" := (bind m (fun x => k))
  (at level 61, m at next level, right associativity) : eff_scope.
Notation "m ;;; k" := (bind m (fun _ => k))
  (at level 61, right associativity) : eff_scope.

(** ** The listener *)

(** Collaborators that live outside [src/chat-client/index.ts], and the
    built-ins of the language that the listener calls. *)
Class Collaborators : Type := {
  JSON_parse : string -> option value;                     (* [None]: a SyntaxError *)
  formatAPIObjectOutput : value -> value;                  (* ../utils *)
  ChatChannel : Type;                                      (* ./types *)
  channel_value : ChatChannel -> value;                    (* the channel object as data *)
  formatAPIObjectInput : ChatChannel -> string -> value;   (* ../utils *)
  JSON_stringify : value -> string;
  _pathToKeybaseBinary : Chat -> string;                   (* ../client-base *)
  toLowerCase : string -> string                           (* [String.prototype.toLowerCase] *)
}.

Section Listener.

Context {U : Type} {env : Collaborators}.

Definition OnMessage : Type := value -> U -> outcome * U.
Definition OnError : Type := error -> U -> outcome * U.

Local Open Scope eff_scope.

(** [this._adminDebugLogger.info] and [.error]. *)
Definition logger_info (text : string) : M U unit := emit (LogInfo text).
Definition logger_error (text : string) : M U unit := emit (LogError text).

(** [Array.prototype.unshift] with two items, and [push]. *)
Definition unshift (args : list string) (a b : string) : list string := a :: b :: args.
Definition push (args : list string) (items : list string) : list string :=
  (args ++ items)%list.

(** Lines 423 to 435: the argument list of the listen process. *)
Definition listen_args (this : Chat) (channel : option ChatChannel)
    (options : option ListenOptions) : list string :=
  let args := ["chat"; "api-listen"] in
  let args :=
    match homeDir this with
    | Some dir => if truthy (Some dir) then unshift args "--home" dir else args
    | None => args
    end in
  let args :=
    match options with
    | None => push args ["--hide-exploding"]
    | Some o =>
        match hideExploding o with
        | Some false => args
        | _ => push args ["--hide-exploding"]
        end
    end in
  let args :=
    match options with
    | Some o =>
        match showLocal o with
        | Some true => push args ["--local"]
        | _ => args
        end
    | None => args
    end in
  match channel with
  | Some c =>
      push args ["--filter-channel"; JSON_stringify (formatAPIObjectInput c "chat")]
  | None => args
  end.

(** [options && options.showLocal], as a condition. *)
Definition options_showLocal (options : option ListenOptions) : bool :=
  match options with
  | Some o => match showLocal o with Some true => true | _ => false end
  | None => false
  end.

(** Lines 467 to 470: the condition under which [onMessage] is fired.
    Evaluation is left to right and short-circuits, so the notification is
    only looked into when [showLocal] is off and the session has both a
    username and a device name. *)
Definition fire_condition (this : Chat) (options : option ListenOptions)
    (messageObject : value) : completion bool :=
  (if options_showLocal options then Normal true
   else
     match username this, devicename this with
     | Some name, Some device =>
         if truthy (Some name) && truthy (Some device) then
           msg <- get messageObject "msg" ;;
           sender <- get msg "sender" ;;
           sender_username <- get sender "username" ;;
           if strict_neq sender_username (toLowerCase name) then Normal true
           else
             msg <- get messageObject "msg" ;;
             sender <- get msg "sender" ;;
             sender_deviceName <- get sender "deviceName" ;;
             Normal (strict_neq sender_deviceName device)
         else Normal false
     | _, _ => Normal false
     end)%js.

(** [formatAPIObjectOutput(JSON.parse(line))] *)
Definition decode (line : string) : M U value :=
  match JSON_parse line with
  | Some v => ret (formatAPIObjectOutput v)
  | None => throw (SyntaxError line)
  end.

(** Lines 458 to 479. *)
Definition onLine (onMessage : OnMessage) (onError : option OnError)
    (options : option ListenOptions) (line : string) : M U unit :=
  logger_info ("stdout from listener: " ++ line) ;;;
  try_catch
    (messageObject <- decode line ;;
     has_error <- lift (hasOwnProperty messageObject "error") ;;
     if has_error : bool then
       err <- lift (get messageObject "error") ;;
       throw (ErrorOf err)
     else
       this <- get_this ;;
       fire <- lift (fire_condition this options messageObject) ;;
       if fire : bool then
         msg <- lift (get messageObject "msg") ;;
         call CallMessage onMessage msg
       else ret tt)
    (fun error =>
       match onError with
       | Some f => call CallError f error
       | None => ret tt
       end).

(** What [_chatListen] attaches to the child process and to the two line
    readers. *)
Record listener : Type := {
  child : ChildProcess;
  child_on_error : string -> M U unit;     (* argument: [err.message] *)
  child_on_exit : M U unit;
  child_on_close : M U unit;
  child_on_disconnect : M U unit;
  stderr_on_line : string -> M U unit;
  stdout_on_line : string -> M U unit
}.

Definition spawn (file : string) (args : list string) : ChildProcess :=
  {| spawnfile := file; spawnargs := args |}.

(** [this._spawnedProcesses.push(child)] *)
Definition register (child : ChildProcess) : M U unit :=
  this <- get_this ;;
  set_this {| username := username this;
              devicename := devicename this;
              homeDir := homeDir this;
              _spawnedProcesses := (_spawnedProcesses this ++ [child])%list |}.

(** Lines 422 to 481. *)
Definition _chatListen (onMessage : OnMessage) (onError : option OnError)
    (channel : option ChatChannel) (options : option ListenOptions) : M U listener :=
  this <- get_this ;;
  let args := listen_args this channel options in
  let child := spawn (_pathToKeybaseBinary this) args in
  register child ;;;
  let cmdSample := _pathToKeybaseBinary this ++ " " ++ String.concat " " args in
  logger_info ("beginning listen on channel="
               ++ JSON_stringify (match channel with
                                  | Some c => channel_value c
                                  | None => Str "ALL"
                                  end)
               ++ " using " ++ cmdSample) ;;;
  ret {| child := child;
         child_on_error := fun message => logger_error ("got listen error " ++ message);
         child_on_exit := logger_info "got listen exit";
         child_on_close := logger_info "got listen close";
         child_on_disconnect := logger_info "got listen disconnect";
         stderr_on_line := fun line => logger_error ("stderr from listener: " ++ line);
         stdout_on_line := onLine onMessage onError options |}.

(** ** The child process as a source of events *)

Inductive child_event : Type :=
| ChildError (message : string)
| ChildExit
| ChildClose
| ChildDisconnect
| StderrLine (line : string)
| StdoutLine (line : string).

Definition dispatch (l : listener) (ev : child_event) : M U unit :=
  match ev with
  | ChildError message => child_on_error l message
  | ChildExit => child_on_exit l
  | ChildClose => child_on_close l
  | ChildDisconnect => child_on_disconnect l
  | StderrLine line => stderr_on_line l line
  | StdoutLine line => stdout_on_line l line
  end.

(** The events of the child, handled one after the other.  A handler that
    throws has no caller inside the listener to catch it: the exception
    leaves the listener there, and the run holds what was done up to it. *)
Fixpoint run (l : listener) (evs : list child_event) : M U unit :=
  match evs with
  | [] => ret tt
  | ev :: rest => dispatch l ev ;;; run l rest
  end.

End Listener.

(** ** A concrete environment

    Small stand-ins for the collaborators, to run the listener on sample
    lines: a reader for the JSON documents the samples use (objects,
    arrays, strings without escapes, short unsigned integers, the three
    literals; anything else is rejected), the snake_case to camelCase
    renaming of keys, and a printer for channel filters. *)

Module Demo.

Definition dquote : ascii := "034"%char.
Definition quoted (s : string) : string :=
  String dquote s ++ String dquote EmptyString.

Definition is_space (c : ascii) : bool :=
  let n := nat_of_ascii c in
  Nat.eqb n 32 || Nat.eqb n 9 || Nat.eqb n 10 || Nat.eqb n 13.

Definition is_digit (c : ascii) : bool :=
  let n := nat_of_ascii c in Nat.leb 48 n && Nat.leb n 57.

Fixpoint skip_ws (s : string) : string :=
  match s with
  | String c rest => if is_space c then skip_ws rest else s
  | EmptyString => s
  end.

(** The characters of a string literal, after its opening quote. *)
Fixpoint read_chars (s : string) : option (string * string) :=
  match s with
  | EmptyString => None
  | String c rest =>
      if Ascii.eqb c dquote then Some (EmptyString, rest)
      else if Ascii.eqb c "\"%char || Nat.ltb (nat_of_ascii c) 32 then None
      else match read_chars rest with
           | Some (body, rest') => Some (String c body, rest')
           | None => None
           end
  end.

Fixpoint read_digits (s : string) : string * string :=
  match s with
  | String c rest =>
      if is_digit c then let '(ds, rest') := read_digits rest in (String c ds, rest')
      else (EmptyString, s)
  | EmptyString => (EmptyString, s)
  end.

Definition read_number (s : string) : option (value * string) :=
  let '(ds, rest) := read_digits s in
  let plain :=
    match rest with
    | String c _ => negb (Ascii.eqb c "."%char || Ascii.eqb c "e"%char || Ascii.eqb c "E"%char)
    | EmptyString => true
    end in
  let canonical :=
    match ds with
    | EmptyString => false
    | String c EmptyString => true
    | String c _ => negb (Ascii.eqb c "0"%char)
    end in
  if plain && canonical && Nat.leb (String.length ds) 15 then Some (Num ds, rest) else None.

Definition read_literal (s : string) : option (value * string) :=
  if String.prefix "true" s then Some (Bool true, String.substring 4 (String.length s - 4) s)
  else if String.prefix "false" s then Some (Bool false, String.substring 5 (String.length s - 5) s)
  else if String.prefix "null" s then Some (Null, String.substring 4 (String.length s - 4) s)
  else None.

(** A later member of the same name replaces the earlier one in place. *)
Fixpoint set_field (k : string) (v : value) (fields : list (string * value))
    : list (string * value) :=
  match fields with
  | [] => [(k, v)]
  | (k', v') :: rest =>
      if String.eqb k k' then (k, v) :: rest else (k', v') :: set_field k v rest
  end.

Fixpoint read_value (fuel : nat) (s : string) {struct fuel} : option (value * string) :=
  match fuel with
  | O => None
  | S fuel' =>
      match skip_ws s with
      | EmptyString => None
      | String c rest =>
          if Ascii.eqb c "{"%char then
            match skip_ws rest with
            | String c' rest' =>
                if Ascii.eqb c' "}"%char then Some (Obj [], rest')
                else read_members fuel' (String c' rest') []
            | EmptyString => None
            end
          else if Ascii.eqb c "["%char then
            match skip_ws rest with
            | String c' rest' =>
                if Ascii.eqb c' "]"%char then Some (Arr [], rest')
                else read_items fuel' (String c' rest') []
            | EmptyString => None
            end
          else if Ascii.eqb c dquote then
            match read_chars rest with
            | Some (body, rest') => Some (Str body, rest')
            | None => None
            end
          else if is_digit c then read_number (String c rest)
          else read_literal (String c rest)
      end
  end

with read_members (fuel : nat) (s : string) (acc : list (string * value)) {struct fuel}
    : option (value * string) :=
  match fuel with
  | O => None
  | S fuel' =>
      match skip_ws s with
      | String c rest =>
          if Ascii.eqb c dquote then
            match read_chars rest with
            | Some (k, rest1) =>
                match skip_ws rest1 with
                | String colon rest2 =>
                    if Ascii.eqb colon ":"%char then
                      match read_value fuel' rest2 with
                      | Some (v, rest3) =>
                          match skip_ws rest3 with
                          | String sep rest4 =>
                              if Ascii.eqb sep ","%char
                              then read_members fuel' rest4 (set_field k v acc)
                              else if Ascii.eqb sep "}"%char
                              then Some (Obj (set_field k v acc), rest4)
                              else None
                          | EmptyString => None
                          end
                      | None => None
                      end
                    else None
                | EmptyString => None
                end
            | None => None
            end
          else None
      | EmptyString => None
      end
  end

with read_items (fuel : nat) (s : string) (acc : list value) {struct fuel}
    : option (value * string) :=
  match fuel with
  | O => None
  | S fuel' =>
      match read_value fuel' s with
      | Some (v, rest) =>
          match skip_ws rest with
          | String sep rest' =>
              if Ascii.eqb sep ","%char then read_items fuel' rest' (acc ++ [v])%list
              else if Ascii.eqb sep "]"%char then Some (Arr (acc ++ [v])%list, rest')
              else None
          | EmptyString => None
          end
      | None => None
      end
  end.

Definition JSON_parse (line : string) : option value :=
  match read_value (S (String.length line)) line with
  | Some (v, rest) =>
      match skip_ws rest with
      | EmptyString => Some v
      | _ => None
      end
  | None => None
  end.

(** A stand-in for [String.prototype.toLowerCase]: the letters A to Z are
    lower-cased and every other byte is kept, which is what the method does
    on ASCII text. *)
Definition lower_ascii (c : ascii) : ascii :=
  let n := nat_of_ascii c in
  if andb (Nat.leb 65 n) (Nat.leb n 90) then ascii_of_nat (n + 32) else c.

Fixpoint toLowerCase (s : string) : string :=
  match s with
  | EmptyString => EmptyString
  | String c rest => String (lower_ascii c) (toLowerCase rest)
  end.

Definition upper_ascii (c : ascii) : ascii :=
  let n := nat_of_ascii c in
  if Nat.leb 97 n && Nat.leb n 122 then ascii_of_nat (n - 32) else c.

Fixpoint camelcase (s : string) : string :=
  match s with
  | EmptyString => EmptyString
  | String c EmptyString => s
  | String c (String d rest as tail) =>
      if Ascii.eqb c "_"%char then String (upper_ascii d) (camelcase rest)
      else String c (camelcase tail)
  end.

(** A stand-in for [formatAPIObjectOutput] of ../utils, after the
    field-naming convention of the wire: keys are renamed, at every depth. *)
Fixpoint formatAPIObjectOutput (v : value) : value :=
  match v with
  | Arr items => Arr (map formatAPIObjectOutput items)
  | Obj fields =>
      Obj (map (fun kv => let '(k, x) := kv in (camelcase k, formatAPIObjectOutput x)) fields)
  | _ => v
  end.

Fixpoint stringify (v : value) : string :=
  match v with
  | Undefined => "undefined"
  | Null => "null"
  | Bool true => "true"
  | Bool false => "false"
  | Num repr => repr
  | Str s => quoted s
  | Arr items => "[" ++ String.concat "," (map stringify items) ++ "]"
  | Obj fields =>
      "{" ++ String.concat ","
               (map (fun kv => let '(k, x) := kv in quoted k ++ ":" ++ stringify x) fields)
          ++ "}"
  end.

(** A channel filter is a conversation name here. *)
Definition ChatChannel : Type := string.
Definition channel_value (c : ChatChannel) : value := Obj [("name", Str c)].
Definition formatAPIObjectInput (c : ChatChannel) (apiName : string) : value :=
  channel_value c.
Definition _pathToKeybaseBinary (this : Chat) : string := "keybase".

End Demo.

#[export] Instance demo : Collaborators := {|
  JSON_parse := Demo.JSON_parse;
  formatAPIObjectOutput := Demo.formatAPIObjectOutput;
  ChatChannel := Demo.ChatChannel;
  channel_value := Demo.channel_value;
  formatAPIObjectInput := Demo.formatAPIObjectInput;
  JSON_stringify := Demo.stringify;
  _pathToKeybaseBinary := Demo._pathToKeybaseBinary;
  toLowerCase := Demo.toLowerCase
|}.

(** ** Sample lines, sessions and callbacks *)

Module Samples.

Import Demo.

(** [{"msg":{"sender":{"username":<user>,"device_name":<device>},"body":<body>}}] *)
Definition notification_line (user device body : string) : string :=
  "{" ++ quoted "msg" ++ ":{" ++ quoted "sender" ++ ":{"
      ++ quoted "username" ++ ":" ++ quoted user ++ ","
      ++ quoted "device_name" ++ ":" ++ quoted device ++ "},"
      ++ quoted "body" ++ ":" ++ quoted body ++ "}}".

(** The payload the line above unwraps to. *)
Definition summary (user device body : string) : value :=
  Obj [("sender", Obj [("username", Str user); ("deviceName", Str device)]);
       ("body", Str body)].

(** [{"error":<text>}] *)
Definition error_line (text : string) : string :=
  "{" ++ quoted "error" ++ ":" ++ quoted text ++ "}".

Definition malformed_line : string := "{ nope".

(** A session of [name] on [device], nothing spawned yet; the caller's
    state counts the callback calls made so far. *)
Definition session (name device : option string) : world nat :=
  {| this := {| username := name; devicename := device; homeDir := None;
                _spawnedProcesses := [] |};
     user := 0 |}.

(** The line of the end-to-end scenario, [bob] on [x] saying [hi]. *)
Definition scenario_line : string := notification_line "bob" "x" "hi".
Definition scenario_document : value := Obj [("msg", summary "bob" "x" "hi")].

(** The session's own name, on its own device, but written [Bot]. *)
Definition capital_line : string := notification_line "Bot" "d1" "echo".
Definition capital_document : value := Obj [("msg", summary "Bot" "d1" "echo")].

Definition counting {X : Type} (x : X) (n : nat) : outcome * nat := (Returns, S n).
Definition failing {X : Type} (x : X) (n : nat) : outcome * nat :=
  (Throws (Failure "boom"), S n).

End Samples.

(** ** Observing a handler *)

Section Observations.

Context {U : Type} {env : Collaborators}.

Definition trace_of {A} (r : list event * world U * completion A) : list event := fst (fst r).
Definition world_of {A} (r : list event * world U * completion A) : world U := snd (fst r).
Definition result_of {A} (r : list event * world U * completion A) : completion A := snd r.

(** [tr] happened first, then [r]. *)
Definition after {A} (tr : list event) (r : list event * world U * completion A)
    : list event * world U * completion A :=
  ((tr ++ trace_of r)%list, world_of r, result_of r).

(** The arguments [onMessage] was called with, in order; likewise [onError]. *)
Definition message_calls (tr : list event) : list value :=
  flat_map (fun ev => match ev with CallMessage m => [m] | _ => [] end) tr.

Definition error_calls (tr : list event) : list error :=
  flat_map (fun ev => match ev with CallError e => [e] | _ => [] end) tr.

Definition is_log (ev : event) : bool :=
  match ev with
  | LogInfo _ | LogError _ => true
  | _ => false
  end.

(** The callback calls of a trace, the logger's lines left out. *)
Definition calls (tr : list event) : list event :=
  filter (fun ev => negb (is_log ev)) tr.

Definition is_lifecycle (ev : child_event) : bool :=
  match ev with
  | ChildError _ | ChildExit | ChildClose | ChildDisconnect => true
  | _ => false
  end.

Definition is_stderr (ev : child_event) : bool :=
  match ev with
  | StderrLine _ => true
  | _ => false
  end.

(** A callback call that does not throw. *)
Definition returns (o : outcome) : Prop :=
  match o with
  | Throws _ => False
  | _ => True
  end.

(** What a stdout line decodes to, when it decodes. *)
Definition decoded (line : string) : option value :=
  option_map formatAPIObjectOutput (JSON_parse line).

(** A decoded success notification: a document without an [error] field. *)
Definition success (v : value) : Prop := hasOwnProperty v "error" = Normal false.

(** A success notification with payload [msg], sent by user [u] from
    device [d]. *)
Definition sent_by (v msg : value) (u d : string) : Prop :=
  success v /\
  get v "msg" = Normal msg /\
  exists sender,
    get msg "sender" = Normal sender /\
    get sender "username" = Normal (Str u) /\
    get sender "deviceName" = Normal (Str d).

(** What the filter reads of a payload: [msg.sender.username] and
    [msg.sender.deviceName], whatever values they are ([Undefined] for a
    field that is not there); [None] when [msg] or [msg.sender] is
    [undefined] or [null], so that reading them throws. *)
Definition sender_of (msg : value) : option (value * value) :=
  match get msg "sender" with
  | Normal sender =>
      match get sender "username", get sender "deviceName" with
      | Normal sender_username, Normal sender_deviceName =>
          Some (sender_username, sender_deviceName)
      | _, _ => None
      end
  | Abrupt _ => None
  end.

(** A line that is malformed JSON, or that carries an [error] field, with
    the error the handler raises for it. *)
Inductive failed_line (line : string) : error -> Prop :=
| malformed :
    JSON_parse line = None ->
    failed_line line (SyntaxError line)
| error_field v err :
    decoded line = Some v ->
    hasOwnProperty v "error" = Normal true ->
    get v "error" = Normal err ->
    failed_line line (ErrorOf err).

(** The specification's reading of the self-origin rule: the sender
    differs from the session by username, compared without regard to case,
    or by device name. *)
Definition differs_ignoring_case (u d name device : string) : Prop :=
  toLowerCase u <> toLowerCase name \/ d <> device.

(** The pieces of the argument list, as the invocation shape names them. *)
Definition home_prefix (this : Chat) : list string :=
  match homeDir this with
  | Some dir => if String.eqb dir "" then [] else ["--home"; dir]
  | None => []
  end.

Definition hides_exploding (options : option ListenOptions) : bool :=
  match options with
  | Some o => match hideExploding o with Some false => false | _ => true end
  | None => true
  end.

Definition filter_flag (channel : option ChatChannel) : list string :=
  match channel with
  | Some c => ["--filter-channel"; JSON_stringify (formatAPIObjectInput c "chat")]
  | None => []
  end.

(** What the handler decides for a line, before any callback runs. *)
Inductive verdict : Type :=
| Deliver (msg : value)
| Suppress
| Fail (e : error).

Definition verdict_of (this : Chat) (options : option ListenOptions) (line : string)
    : verdict :=
  match JSON_parse line with
  | None => Fail (SyntaxError line)
  | Some v =>
      let messageObject := formatAPIObjectOutput v in
      match hasOwnProperty messageObject "error" with
      | Abrupt e => Fail e
      | Normal true =>
          match get messageObject "error" with
          | Normal err => Fail (ErrorOf err)
          | Abrupt e => Fail e
          end
      | Normal false =>
          match fire_condition this options messageObject with
          | Abrupt e => Fail e
          | Normal false => Suppress
          | Normal true =>
              match get messageObject "msg" with
              | Normal msg => Deliver msg
              | Abrupt e => Fail e
              end
          end
      end
  end.

(** The [catch] clause of the line handler. *)
Definition catch_clause (onError : option (@OnError U)) (error : error) : M U unit :=
  match onError with
  | Some f => call CallError f error
  | None => ret tt
  end.

Definition settle (onMessage : @OnMessage U) (onError : option (@OnError U)) (v : verdict)
    : M U unit :=
  match v with
  | Deliver msg => try_catch (call CallMessage onMessage msg) (catch_clause onError)
  | Suppress => ret tt
  | Fail e => catch_clause onError e
  end.

End Observations.

(** ** The request methods

    The public methods of [Chat] other than the listener's: each waits for
    [_guardInitialized], runs one API command and looks at what came
    back.  An [async] method is an action that ends normally when its
    promise resolves and with a [throw] when it rejects. *)

Module Api.

(** [ApiCommandArg] of ../client-base. *)
Record ApiCommandArg : Type := {
  apiName : string;
  method : string;
  options : value;        (* [Undefined] when there are none *)
  timeout : option nat    (* milliseconds *)
}.

(** [ChatMessage]: what [send] reads of it. *)
Record ChatMessage : Type := {
  body : string
}.

(** An object literal: its own properties, in insertion order. *)
Definition object : Type := list (string * value).

(** A number, carried by its decimal rendering as in [Num]. *)
Definition number : Type := string.

(** [{ ...fields, k: v }]: a property that is already there keeps its
    place and takes the new value, a new one goes last. *)
Fixpoint define (k : string) (v : value) (fields : object) : object :=
  match fields with
  | [] => [(k, v)]
  | (k', v') :: rest =>
      if String.eqb k k' then (k, v) :: rest else (k', v') :: define k v rest
  end.

(** [{ ...options }] for an [options] that may be [undefined]. *)
Definition spread (options : option object) : object :=
  match options with
  | Some fields => fields
  | None => []
  end.

(** The [options] argument itself, as a value. *)
Definition as_value (options : option object) : value :=
  match options with
  | Some fields => Obj fields
  | None => Undefined
  end.

(** [fields.k] *)
Definition property (fields : object) (k : string) : value :=
  match lookup k fields with
  | Some v => v
  | None => Undefined
  end.

(** Truthiness: [undefined], [null], [false], [0], [NaN] and [""] are
    falsy, everything else is truthy. *)
Definition is_truthy (v : value) : bool :=
  match v with
  | Undefined | Null => false
  | Bool b => b
  | Num repr => negb (String.eqb repr "0" || String.eqb repr "NaN")
  | Str s => negb (String.eqb s "")
  | Arr _ | Obj _ => true
  end.

(** [`${v}`]: the string a template literal makes of a value.  An array is
    joined with commas, [null] and [undefined] items left empty; an object
    prints as [[object Object]] unless an own [toString] property, which
    coming from JSON is not callable, hides the inherited method, and then
    the conversion throws. *)
Fixpoint ToString (v : value) : completion string :=
  match v with
  | Undefined => Normal "undefined"
  | Null => Normal "null"
  | Bool true => Normal "true"
  | Bool false => Normal "false"
  | Num repr => Normal repr
  | Str s => Normal s
  | Arr items =>
      (fix join (items : list value) : completion string :=
         match items with
         | [] => Normal ""
         | item :: rest =>
             match match item with
                   | Undefined | Null => Normal ""
                   | _ => ToString item
                   end with
             | Abrupt e => Abrupt e
             | Normal first =>
                 match rest with
                 | [] => Normal first
                 | _ :: _ =>
                     match join rest with
                     | Normal others => Normal (first ++ "," ++ others)
                     | Abrupt e => Abrupt e
                     end
                 end
             end
         end) items
  | Obj fields =>
      if has_key "toString" fields then Abrupt (TypeError "toString")
      else Normal "[object Object]"
  end.

(** [f] over the items of an array, left to right, up to the first throw. *)
Fixpoint each {A B} (f : A -> completion B) (items : list A) : completion (list B) :=
  match items with
  | [] => Normal []
  | item :: rest =>
      match f item with
      | Abrupt e => Abrupt e
      | Normal b =>
          match each f rest with
          | Normal bs => Normal (b :: bs)
          | Abrupt e => Abrupt e
          end
      end
  end.

(** [messages.map(message => message.msg)]: on anything but an array there
    is no [map] to call. *)
Definition map_msg (messages : value) : completion (list value) :=
  match messages with
  | Arr items => each (fun message => get message "msg") items
  | _ => Abrupt (TypeError "map")
  end.

Definition quote_mark : string := String "034"%char EmptyString.

End Api.

(** The methods of [ClientBase] that the request methods call; the class
    itself is outside [src/chat-client/index.ts]. *)
Class ClientBase (U : Type) : Type := {
  _guardInitialized : M U unit;
  _runApiCommand : Api.ApiCommandArg -> M U value;
  formatAPIObjectInput_literal : value -> string -> value
    (* [formatAPIObjectInput] of ../utils, at an object literal *)
}.

Section Methods.

Context {U : Type} {env : Collaborators} {base : ClientBase U}.

Import Api.
Local Open Scope eff_scope.

(** Lines 41 to 48: [list]. *)
Definition chat_list (options : option object) : M U value :=
  _guardInitialized ;;;
  res <- _runApiCommand {| apiName := "chat"; method := "list";
                           options := as_value options; timeout := None |} ;;
  if is_truthy res then
    conversations <- lift (get res "conversations") ;;
    ret (if is_truthy conversations then conversations else Arr [])
  else throw (ErrorOf (Str "Keybase chat list returned nothing.")).

(** Lines 61 to 65. *)
Definition listChannels_optionsWithDefaults (name : string) (options : option object)
    : object :=
  define "membersType"
    (match options with
     | Some fields =>
         if is_truthy (property fields "membersType")
         then property fields "membersType" else Str "team"
     | None => Str "team"
     end)
    (define "name" (Str name) (spread options)).

(** Lines 59 to 75. *)
Definition listChannels (name : string) (options : option object) : M U value :=
  _guardInitialized ;;;
  let optionsWithDefaults := listChannels_optionsWithDefaults name options in
  res <- _runApiCommand {| apiName := "chat"; method := "listconvsonname";
                           options := Obj optionsWithDefaults; timeout := None |} ;;
  if is_truthy res then
    conversations <- lift (get res "conversations") ;;
    ret (if is_truthy conversations then conversations else Arr [])
  else throw (ErrorOf (Str "Keybase chat list convs on name returned nothing.")).

(** Lines 88 to 93. *)
Definition read_optionsWithDefaults (channel : ChatChannel) (options : option object)
    : object :=
  define "unreadOnly"
    (match options with
     | Some fields =>
         match property fields "unreadOnly" with
         | Undefined => Bool false
         | unreadOnly => unreadOnly
         end
     | None => Bool false
     end)
    (define "peek"
       (match options with
        | Some fields =>
            if is_truthy (property fields "peek")
            then property fields "peek" else Bool false
        | None => Bool false
        end)
       (define "channel" (channel_value channel) (spread options))).

(** Lines 86 to 103. *)
Definition read (channel : ChatChannel) (options : option object) : M U value :=
  _guardInitialized ;;;
  let optionsWithDefaults := read_optionsWithDefaults channel options in
  res <- _runApiCommand {| apiName := "chat"; method := "read";
                           options := Obj optionsWithDefaults; timeout := None |} ;;
  if is_truthy res then
    pagination <- lift (get res "pagination") ;;
    messages <- lift (get res "messages") ;;
    summaries <- lift (map_msg messages) ;;
    ret (Obj [("pagination", pagination); ("messages", Arr summaries)])
  else throw (ErrorOf (Str "Keybase chat read returned nothing.")).

(** Lines 118 to 130. *)
Definition joinChannel (channel : ChatChannel) : M U unit :=
  _guardInitialized ;;;
  res <- _runApiCommand {| apiName := "chat"; method := "join";
                           options := Obj [("channel", channel_value channel)];
                           timeout := None |} ;;
  if is_truthy res then ret tt
  else throw (ErrorOf (Str "Keybase chat join returned nothing")).

(** Lines 145 to 157. *)
Definition leaveChannel (channel : ChatChannel) : M U unit :=
  _guardInitialized ;;;
  res <- _runApiCommand {| apiName := "chat"; method := "leave";
                           options := Obj [("channel", channel_value channel)];
                           timeout := None |} ;;
  if is_truthy res then ret tt
  else throw (ErrorOf (Str "Keybase chat leave returned nothing")).

(** Lines 172 to 176. *)
Definition send_args (channel : ChatChannel) (message : ChatMessage)
    (options : option object) : object :=
  define "message" (Obj [("body", Str (body message))])
    (define "channel" (channel_value channel) (spread options)).

(** Lines 170 to 188. *)
Definition send (channel : ChatChannel) (message : ChatMessage) (options : option object)
    : M U value :=
  _guardInitialized ;;;
  let args := send_args channel message options in
  logger_info ("sending message " ++ quote_mark ++ body message ++ quote_mark
               ++ " in channel " ++ JSON_stringify (channel_value channel)) ;;;
  res <- _runApiCommand {| apiName := "chat"; method := "send";
                           options := Obj args; timeout := None |} ;;
  if is_truthy res then
    id <- lift (get res "id") ;;
    text <- lift (ToString id) ;;
    logger_info ("message sent with id " ++ text) ;;;
    id <- lift (get res "id") ;;
    ret (Obj [("id", id)])
  else throw (ErrorOf (Str "Keybase chat send returned nothing")).

(** Lines 197 to 210. *)
Definition createChannel (channel : ChatChannel) : M U unit :=
  _guardInitialized ;;;
  let args := [("channel", channel_value channel)] in
  res <- _runApiCommand {| apiName := "chat"; method := "newconv";
                           options := Obj args; timeout := None |} ;;
  if is_truthy res then ret tt
  else throw (ErrorOf (Str "Keybase chat newconv returned nothing")).

(** Line 223. *)
Definition attach_args (channel : ChatChannel) (filename : string)
    (options : option object) : object :=
  define "filename" (Str filename)
    (define "channel" (channel_value channel) (spread options)).

(** Lines 221 to 229. *)
Definition attach (channel : ChatChannel) (filename : string) (options : option object)
    : M U value :=
  _guardInitialized ;;;
  let args := attach_args channel filename options in
  res <- _runApiCommand {| apiName := "chat"; method := "attach";
                           options := Obj args; timeout := None |} ;;
  if is_truthy res then
    id <- lift (get res "id") ;;
    ret (Obj [("id", id)])
  else throw (ErrorOf (Str "Keybase chat attach returned nothing")).

(** Line 243. *)
Definition download_args (channel : ChatChannel) (messageId : number) (output : string)
    (options : option object) : object :=
  define "output" (Str output)
    (define "messageId" (Num messageId)
       (define "channel" (channel_value channel) (spread options))).

(** Lines 241 to 248. *)
Definition download (channel : ChatChannel) (messageId : number) (output : string)
    (options : option object) : M U unit :=
  _guardInitialized ;;;
  let args := download_args channel messageId output options in
  res <- _runApiCommand {| apiName := "chat"; method := "download";
                           options := Obj args; timeout := None |} ;;
  if is_truthy res then ret tt
  else throw (ErrorOf (Str "Keybase chat download returned nothing")).

(** Lines 263 to 268. *)
Definition react_args (channel : ChatChannel) (messageId : number) (reaction : string)
    (options : option object) : object :=
  define "message" (Obj [("body", Str reaction)])
    (define "messageId" (Num messageId)
       (define "channel" (channel_value channel) (spread options))).

(** Lines 261 to 275. *)
Definition react (channel : ChatChannel) (messageId : number) (reaction : string)
    (options : option object) : M U value :=
  _guardInitialized ;;;
  let args := react_args channel messageId reaction options in
  res <- _runApiCommand {| apiName := "chat"; method := "reaction";
                           options := Obj args; timeout := None |} ;;
  if is_truthy res then
    id <- lift (get res "id") ;;
    ret (Obj [("id", id)])
  else throw (ErrorOf (Str "Keybase chat react returned nothing.")).

(** Lines 290 to 294. *)
Definition delete_args (channel : ChatChannel) (messageId : number)
    (options : option object) : object :=
  define "messageId" (Num messageId)
    (define "channel" (channel_value channel) (spread options)).

(** Lines 288 to 299. *)
Definition delete (channel : ChatChannel) (messageId : number) (options : option object)
    : M U unit :=
  _guardInitialized ;;;
  let args := delete_args channel messageId options in
  res <- _runApiCommand {| apiName := "chat"; method := "delete";
                           options := Obj args; timeout := None |} ;;
  if is_truthy res then ret tt
  else throw (ErrorOf (Str "Keybase chat delete returned nothing.")).

(** Lines 306 to 313. *)
Definition getUnfurlSettings : M U value :=
  _guardInitialized ;;;
  res <- _runApiCommand {| apiName := "chat"; method := "getunfurlsettings";
                           options := Obj []; timeout := None |} ;;
  if is_truthy res then ret res
  else throw (ErrorOf (Str "Keybase chat get unfurl mode returned nothing.")).

(** Lines 327 to 333. *)
Definition setUnfurlSettings (mode : object) : M U unit :=
  _guardInitialized ;;;
  res <- _runApiCommand {| apiName := "chat"; method := "setunfurlsettings";
                           options := Obj mode; timeout := None |} ;;
  if is_truthy res then ret tt
  else throw (ErrorOf (Str "Keybase chat set unfurl mode returned nothing.")).

(** Lines 344 to 356. *)
Definition loadFlip (conversationID flipConversationID : string) (messageID : number)
    (gameID : string) : M U value :=
  _guardInitialized ;;;
  res <- _runApiCommand
           {| apiName := "chat"; method := "loadflip";
              options :=
                formatAPIObjectInput_literal
                  (Obj [("conversationID", Str conversationID);
                        ("flipConversationID", Str flipConversationID);
                        ("messageID", Num messageID);
                        ("gameID", Str gameID)])
                  "chat";
              timeout := Some 2000 |} ;;
  if is_truthy res then lift (get res "status")
  else throw (ErrorOf (Str "Keybase chat load flip returned nothing.")).

(** Lines 375 to 383.  The promise resolves as soon as the listener is set
    up; the result here is what [_chatListen] attached. *)
Definition watchChannelForNewMessages (channel : ChatChannel) (onMessage : @OnMessage U)
    (onError : option (@OnError U)) (options : option ListenOptions) : M U listener :=
  _guardInitialized ;;;
  _chatListen onMessage onError (Some channel) options.

(** Lines 406 to 409. *)
Definition watchAllChannelsForNewMessages (onMessage : @OnMessage U)
    (onError : option (@OnError U)) (options : option ListenOptions) : M U listener :=
  _guardInitialized ;;;
  _chatListen onMessage onError None options.

(** *** The requests, side by side *)

(** A call of one of the fourteen request methods. *)
Inductive request : Type :=
| ReqList (options : option object)
| ReqListChannels (name : string) (options : option object)
| ReqRead (channel : ChatChannel) (options : option object)
| ReqJoinChannel (channel : ChatChannel)
| ReqLeaveChannel (channel : ChatChannel)
| ReqSend (channel : ChatChannel) (message : ChatMessage) (options : option object)
| ReqCreateChannel (channel : ChatChannel)
| ReqAttach (channel : ChatChannel) (filename : string) (options : option object)
| ReqDownload (channel : ChatChannel) (messageId : number) (output : string)
    (options : option object)
| ReqReact (channel : ChatChannel) (messageId : number) (reaction : string)
    (options : option object)
| ReqDelete (channel : ChatChannel) (messageId : number) (options : option object)
| ReqGetUnfurlSettings
| ReqSetUnfurlSettings (mode : object)
| ReqLoadFlip (conversationID flipConversationID : string) (messageID : number)
    (gameID : string).

(** The call itself, its result dropped. *)
Definition perform (r : request) : M U unit :=
  match r with
  | ReqList options => chat_list options ;;; ret tt
  | ReqListChannels name options => listChannels name options ;;; ret tt
  | ReqRead channel options => read channel options ;;; ret tt
  | ReqJoinChannel channel => joinChannel channel
  | ReqLeaveChannel channel => leaveChannel channel
  | ReqSend channel message options => send channel message options ;;; ret tt
  | ReqCreateChannel channel => createChannel channel
  | ReqAttach channel filename options => attach channel filename options ;;; ret tt
  | ReqDownload channel messageId output options =>
      download channel messageId output options
  | ReqReact channel messageId reaction options =>
      react channel messageId reaction options ;;; ret tt
  | ReqDelete channel messageId options => delete channel messageId options
  | ReqGetUnfurlSettings => getUnfurlSettings ;;; ret tt
  | ReqSetUnfurlSettings mode => setUnfurlSettings mode
  | ReqLoadFlip conversationID flipConversationID messageID gameID =>
      loadFlip conversationID flipConversationID messageID gameID ;;; ret tt
  end.

(** The command each call is expected to run. *)
Definition command_of (r : request) : ApiCommandArg :=
  match r with
  | ReqList options =>
      {| apiName := "chat"; method := "list"; options := as_value options;
         timeout := None |}
  | ReqListChannels name options =>
      {| apiName := "chat"; method := "listconvsonname";
         options := Obj (listChannels_optionsWithDefaults name options);
         timeout := None |}
  | ReqRead channel options =>
      {| apiName := "chat"; method := "read";
         options := Obj (read_optionsWithDefaults channel options); timeout := None |}
  | ReqJoinChannel channel =>
      {| apiName := "chat"; method := "join";
         options := Obj [("channel", channel_value channel)]; timeout := None |}
  | ReqLeaveChannel channel =>
      {| apiName := "chat"; method := "leave";
         options := Obj [("channel", channel_value channel)]; timeout := None |}
  | ReqSend channel message options =>
      {| apiName := "chat"; method := "send";
         options := Obj (send_args channel message options); timeout := None |}
  | ReqCreateChannel channel =>
      {| apiName := "chat"; method := "newconv";
         options := Obj [("channel", channel_value channel)]; timeout := None |}
  | ReqAttach channel filename options =>
      {| apiName := "chat"; method := "attach";
         options := Obj (attach_args channel filename options); timeout := None |}
  | ReqDownload channel messageId output options =>
      {| apiName := "chat"; method := "download";
         options := Obj (download_args channel messageId output options);
         timeout := None |}
  | ReqReact channel messageId reaction options =>
      {| apiName := "chat"; method := "reaction";
         options := Obj (react_args channel messageId reaction options);
         timeout := None |}
  | ReqDelete channel messageId options =>
      {| apiName := "chat"; method := "delete";
         options := Obj (delete_args channel messageId options); timeout := None |}
  | ReqGetUnfurlSettings =>
      {| apiName := "chat"; method := "getunfurlsettings"; options := Obj [];
         timeout := None |}
  | ReqSetUnfurlSettings mode =>
      {| apiName := "chat"; method := "setunfurlsettings"; options := Obj mode;
         timeout := None |}
  | ReqLoadFlip conversationID flipConversationID messageID gameID =>
      {| apiName := "chat"; method := "loadflip";
         options :=
           formatAPIObjectInput_literal
             (Obj [("conversationID", Str conversationID);
                   ("flipConversationID", Str flipConversationID);
                   ("messageID", Num messageID);
                   ("gameID", Str gameID)])
             "chat";
         timeout := Some 2000 |}
  end.

(** The message of the error each call raises for an empty response. *)
Definition nothing_message (r : request) : string :=
  match r with
  | ReqList _ => "Keybase chat list returned nothing."
  | ReqListChannels _ _ => "Keybase chat list convs on name returned nothing."
  | ReqRead _ _ => "Keybase chat read returned nothing."
  | ReqJoinChannel _ => "Keybase chat join returned nothing"
  | ReqLeaveChannel _ => "Keybase chat leave returned nothing"
  | ReqSend _ _ _ => "Keybase chat send returned nothing"
  | ReqCreateChannel _ => "Keybase chat newconv returned nothing"
  | ReqAttach _ _ _ => "Keybase chat attach returned nothing"
  | ReqDownload _ _ _ _ => "Keybase chat download returned nothing"
  | ReqReact _ _ _ _ => "Keybase chat react returned nothing."
  | ReqDelete _ _ _ => "Keybase chat delete returned nothing."
  | ReqGetUnfurlSettings => "Keybase chat get unfurl mode returned nothing."
  | ReqSetUnfurlSettings _ => "Keybase chat set unfurl mode returned nothing."
  | ReqLoadFlip _ _ _ _ => "Keybase chat load flip returned nothing."
  end.

(** What the call logs before its command runs: only [send] logs. *)
Definition announcement (r : request) : list event :=
  match r with
  | ReqSend channel message _ =>
      [LogInfo ("sending message " ++ quote_mark ++ body message ++ quote_mark
                ++ " in channel " ++ JSON_stringify (channel_value channel))]
  | _ => []
  end.

(** What the handler of a line calls for a verdict, when no callback
    throws. *)
Definition calls_of_verdict (onError : option (@OnError U)) (v : verdict) : list event :=
  match v with
  | Deliver msg => [CallMessage msg]
  | Suppress => []
  | Fail e => match onError with Some _ => [CallError e] | None => [] end
  end.

End Methods.

(** *** A service to talk to

    A stand-in for [ClientBase]: the guard passes once the session has a
    username, and every command is answered at once, by its method. *)

Module DemoService.

Import Api.

Definition guard : M nat unit :=
  fun w =>
    match username (this w) with
    | Some _ => ([], w, Normal tt)
    | None => ([], w, Abrupt (ErrorOf (Str "The client is not yet initialized.")))
    end.

Definition respond (cmd : ApiCommandArg) : value :=
  if String.eqb (method cmd) "list" then
    Obj [("conversations", Arr [Obj [("id", Str "c1")]; Obj [("id", Str "c2")]])]
  else if String.eqb (method cmd) "listconvsonname" then Obj []
  else if String.eqb (method cmd) "read" then
    Obj [("messages", Arr [Obj [("msg", Samples.summary "bob" "x" "hi")];
                           Obj [("msg", Samples.summary "carol" "z" "yo")]]);
         ("pagination", Obj [("next", Str "n1")])]
  else if String.eqb (method cmd) "send" then
    Obj [("message", Str "message sent"); ("id", Num "42")]
  else if String.eqb (method cmd) "delete" then Undefined
  else Obj [].

(** The caller's state counts the commands run. *)
Definition runApiCommand (cmd : ApiCommandArg) : M nat value :=
  fun w => ([], {| this := this w; user := S (user w) |}, Normal (respond cmd)).

End DemoService.

#[export] Instance demo_service : ClientBase nat := {|
  _guardInitialized := DemoService.guard;
  _runApiCommand := DemoService.runApiCommand;
  formatAPIObjectInput_literal := fun v _ => v
|}.

(** Two more services: one whose commands all fail, and one that answers
    every command with an object that says nothing. *)
Definition unreachable_service : ClientBase nat := {|
  _guardInitialized := DemoService.guard;
  _runApiCommand := fun _ w => ([], w, Abrupt (Failure "spawn keybase ENOENT"));
  formatAPIObjectInput_literal := fun v _ => v
|}.

Definition bare_service : ClientBase nat := {|
  _guardInitialized := DemoService.guard;
  _runApiCommand := fun _ w => ([], w, Normal (Obj [("ok", Bool true)]));
  formatAPIObjectInput_literal := fun v _ => v
|}.

Module MoreSamples.

Import Demo.

(** [{"msg":{"body":"hi"}}]: a notification that names no sender. *)
Definition senderless_line : string :=
  "{" ++ quoted "msg" ++ ":{" ++ quoted "body" ++ ":" ++ quoted "hi" ++ "}}".
Definition senderless_document : value := Obj [("msg", Obj [("body", Str "hi")])].

(** Options that try to name the channel and the message themselves. *)
Definition meddling_options : Api.object :=
  [("channel", Str "elsewhere"); ("nonblock", Bool true); ("message", Str "other")].

(** [{"msg":{"sender":{"username":"bot"}}}]: a sender without a device. *)
Definition deviceless_line : string :=
  "{" ++ quoted "msg" ++ ":{" ++ quoted "sender" ++ ":{"
      ++ quoted "username" ++ ":" ++ quoted "bot" ++ "}}}".

Definition hello : Api.ChatMessage := {| Api.body := "hello" |}.

Definition general : Demo.ChatChannel := "general".

End MoreSamples.

(** ** Properties *)

Section Properties.

Context {U : Type} {env : Collaborators}.

Implicit Types (w : world U) (l : @listener U) (line : string) (tr : list event).

Lemma eta3 {A B C} (x : A * B * C) : (let '(a, b, c) := x in (a, b, c)) = x.
Proof. now destruct x as [[a b] c]. Qed.

Lemma after_nil {A} (r : list event * world U * completion A) : after [] r = r.
Proof. destruct r as [[tr w] c]. reflexivity. Qed.

Lemma after_after {A} tr1 tr2 (r : list event * world U * completion A) :
  after tr1 (after tr2 r) = after (tr1 ++ tr2) r.
Proof.
  destruct r as [[tr w] c]. unfold after, trace_of, world_of, result_of. simpl.
  now rewrite app_assoc.
Qed.

Lemma bind_normal {A B} (m : M U A) (k : A -> M U B) {w tr w1 a} :
  m w = (tr, w1, Normal a) -> bind m k w = after tr (k a w1).
Proof.
  intros H. unfold bind, after, trace_of, world_of, result_of. rewrite H.
  now destruct (k a w1) as [[tr2 w2] r].
Qed.

Lemma bind_abrupt {A B} (m : M U A) (k : A -> M U B) {w tr w1 e} :
  m w = (tr, w1, Abrupt e) -> bind m k w = (tr, w1, Abrupt e).
Proof. intros H. unfold bind. now rewrite H. Qed.

Lemma message_calls_app tr1 tr2 :
  message_calls (tr1 ++ tr2) = (message_calls tr1 ++ message_calls tr2)%list.
Proof. unfold message_calls. now rewrite flat_map_app. Qed.

Lemma error_calls_app tr1 tr2 :
  error_calls (tr1 ++ tr2) = (error_calls tr1 ++ error_calls tr2)%list.
Proof. unfold error_calls. now rewrite flat_map_app. Qed.

Lemma calls_app tr1 tr2 : calls (tr1 ++ tr2) = (calls tr1 ++ calls tr2)%list.
Proof. unfold calls. now rewrite filter_app. Qed.

(** The line handler logs the line, then settles its verdict. *)
Lemma onLine_verdict onMessage onError options line w :
  onLine onMessage onError options line w =
  after [LogInfo ("stdout from listener: " ++ line)]
        (settle onMessage onError (verdict_of (this w) options line) w).
Proof.
  unfold onLine, verdict_of, decode.
  rewrite (@bind_normal unit unit _ _ w [LogInfo ("stdout from listener: " ++ line)] w tt)
    by reflexivity.
  f_equal.
  unfold try_catch, bind, lift, ret, throw, get_this, settle.
  destruct (JSON_parse line) as [v|]; simpl; [|now rewrite eta3].
  destruct (hasOwnProperty (formatAPIObjectOutput v) "error") as [[|]|e]; simpl;
    [| |now rewrite eta3].
  - destruct (get (formatAPIObjectOutput v) "error") as [err|e]; simpl; now rewrite eta3.
  - destruct (fire_condition (this w) options (formatAPIObjectOutput v)) as [[|]|e]; simpl;
      [| reflexivity | now rewrite eta3].
    destruct (get (formatAPIObjectOutput v) "msg") as [msg|e]; simpl; [|now rewrite eta3].
    unfold try_catch.
    destruct (call CallMessage onMessage msg w) as [[tr1 w1] [[]|e]]; simpl; reflexivity.
Qed.

(** *** Verdicts *)

Lemma decoded_parse {line v} :
  decoded line = Some v ->
  exists v0, JSON_parse line = Some v0 /\ v = formatAPIObjectOutput v0.
Proof.
  unfold decoded. destruct (JSON_parse line) as [v0|]; simpl; [|discriminate].
  intros [= <-]. eauto.
Qed.

Lemma verdict_failed (this : Chat) options {line e} :
  failed_line line e -> verdict_of this options line = Fail e.
Proof.
  intros [Hparse | v err Hdec Hhas Hget]; unfold verdict_of.
  - now rewrite Hparse.
  - destruct (decoded_parse Hdec) as (v0 & -> & ->). simpl. now rewrite Hhas, Hget.
Qed.

Lemma verdict_success (this : Chat) options {line v} :
  decoded line = Some v -> success v ->
  verdict_of this options line =
    match fire_condition this options v with
    | Abrupt e => Fail e
    | Normal false => Suppress
    | Normal true =>
        match get v "msg" with
        | Normal msg => Deliver msg
        | Abrupt e => Fail e
        end
    end.
Proof.
  intros Hdec Hs. destruct (decoded_parse Hdec) as (v0 & Hp & ->).
  unfold verdict_of. rewrite Hp. simpl. now rewrite Hs.
Qed.

(** A document that answered [hasOwnProperty] can be read from. *)
Lemma success_readable {v} k : success v -> exists x, get v k = Normal x.
Proof.
  unfold success. destruct v; simpl; try discriminate; eauto.
  destruct (lookup k fields); eauto.
Qed.

Lemma fire_showLocal (this : Chat) options v :
  options_showLocal options = true -> fire_condition this options v = Normal true.
Proof. unfold fire_condition. now intros ->. Qed.

Lemma fire_without_identity (this : Chat) options v :
  options_showLocal options = false ->
  truthy (username this) = false \/ truthy (devicename this) = false ->
  fire_condition this options v = Normal false.
Proof.
  unfold fire_condition. intros -> H.
  destruct (username this) as [name|]; [|reflexivity].
  destruct (devicename this) as [device|]; [|reflexivity].
  destruct H as [-> | ->]; [reflexivity|]. now rewrite andb_false_r.
Qed.

Lemma fire_with_identity {this : Chat} {options v msg u d name device} :
  options_showLocal options = false ->
  username this = Some name -> devicename this = Some device ->
  name <> "" -> device <> "" ->
  sent_by v msg u d ->
  fire_condition this options v =
    Normal (negb (String.eqb u (toLowerCase name)) || negb (String.eqb d device)).
Proof.
  unfold fire_condition. intros -> -> -> Hn Hd (_ & Hmsg & sender & Hsender & Hu & Hdev).
  unfold truthy.
  apply String.eqb_neq in Hn, Hd. rewrite Hn, Hd. simpl.
  rewrite Hmsg. simpl. rewrite Hsender. simpl. rewrite Hu. simpl.
  destruct (String.eqb u (toLowerCase name)); simpl; [|reflexivity].
  now rewrite Hdev.
Qed.

(** What the condition comes to once the sender is read: a comparison of
    two values with two strings. *)
Lemma fire_with_sender {this : Chat} {options v msg name device} su sd :
  options_showLocal options = false ->
  username this = Some name -> devicename this = Some device ->
  name <> "" -> device <> "" ->
  get v "msg" = Normal msg ->
  sender_of msg = Some (su, sd) ->
  fire_condition this options v =
    Normal (strict_neq su (toLowerCase name) || strict_neq sd device).
Proof.
  unfold fire_condition, sender_of. intros -> -> -> Hn Hd Hmsg Hsender.
  unfold truthy. apply String.eqb_neq in Hn, Hd. rewrite Hn, Hd. simpl.
  rewrite Hmsg. simpl.
  destruct (get msg "sender") as [sender|e]; [|discriminate]. simpl.
  destruct (get sender "username") as [x|e]; [|discriminate].
  destruct (get sender "deviceName") as [y|e]; [|discriminate].
  injection Hsender as -> ->. simpl.
  now destruct (strict_neq su (toLowerCase name)).
Qed.

Lemma fire_without_sender {this : Chat} {options v msg name device} :
  options_showLocal options = false ->
  username this = Some name -> devicename this = Some device ->
  name <> "" -> device <> "" ->
  get v "msg" = Normal msg ->
  sender_of msg = None ->
  exists e, fire_condition this options v = Abrupt e.
Proof.
  unfold fire_condition, sender_of. intros -> -> -> Hn Hd Hmsg Hsender.
  unfold truthy. apply String.eqb_neq in Hn, Hd. rewrite Hn, Hd. simpl.
  rewrite Hmsg. simpl.
  destruct (get msg "sender") as [sender|e]; [|simpl; eauto]. simpl.
  destruct (get sender "username") as [x|e] eqn:Ex; [|simpl; eauto].
  exfalso.
  destruct sender; simpl in Ex, Hsender; try discriminate.
  destruct (lookup "deviceName" fields); discriminate.
Qed.

Lemma strict_neq_true (x : value) s : strict_neq x s = true <-> x <> Str s.
Proof.
  destruct x; simpl; try (split; [discriminate | reflexivity]).
  rewrite negb_true_iff, String.eqb_neq. split; congruence.
Qed.

(** Where lower-casing twice is lower-casing once, a sender that differs
    from the session without regard to case differs from the session's
    lowercased name as well. *)
Lemma differs_ignoring_case_fires {u d name device} :
  (forall s, toLowerCase (toLowerCase s) = toLowerCase s) ->
  differs_ignoring_case u d name device ->
  u <> toLowerCase name \/ d <> device.
Proof.
  intros Hidem [Hu | Hd]; [left | right; exact Hd].
  intros ->. apply Hu. apply Hidem.
Qed.

(** *** Settling a verdict *)

Lemma settle_deliver (onMessage : @OnMessage U) onError msg w :
  settle onMessage onError (Deliver msg) w =
    let w1 := {| this := this w; user := snd (onMessage msg (user w)) |} in
    match fst (onMessage msg (user w)) with
    | Throws e => after [CallMessage msg] (catch_clause onError e w1)
    | _ => ([CallMessage msg], w1, Normal tt)
    end.
Proof.
  unfold settle, try_catch, call.
  destruct (onMessage msg (user w)) as [[| e | e] u1]; simpl; try reflexivity.
  unfold after, trace_of, world_of, result_of.
  now destruct (catch_clause onError e _) as [[tr2 w2] r].
Qed.

Lemma catch_clause_call (f : @OnError U) e w :
  catch_clause (Some f) e w =
    ([CallError e], {| this := this w; user := snd (f e (user w)) |},
     match fst (f e (user w)) with
     | Throws e2 => Abrupt e2
     | _ => Normal tt
     end).
Proof.
  unfold catch_clause, call.
  now destruct (f e (user w)) as [[| e1 | e1] u1].
Qed.

Lemma catch_clause_none e w : catch_clause None e w = ([], w, Normal tt).
Proof. reflexivity. Qed.

(** *** What [_chatListen] attaches *)

Lemma listen_args_shape (this : Chat) channel options :
  listen_args this channel options =
  (home_prefix this ++ ["chat"; "api-listen"]
   ++ (if hides_exploding options then ["--hide-exploding"] else [])
   ++ (if options_showLocal options then ["--local"] else [])
   ++ filter_flag channel)%list.
Proof.
  unfold listen_args, home_prefix, hides_exploding, options_showLocal, filter_flag,
    unshift, push, truthy.
  destruct (homeDir this) as [dir|]; [destruct (String.eqb dir "")|];
    destruct options as [[[[|]|] [[|]|]]|]; destruct channel; reflexivity.
Qed.

(** [_chatListen] always returns, with one more process in the registry
    and one line in the log. *)
Lemma chatListen_runs onMessage onError channel options w0 :
  exists text,
    _chatListen onMessage onError channel options w0 =
    ([LogInfo text],
     {| this := {| username := username (this w0);
                   devicename := devicename (this w0);
                   homeDir := homeDir (this w0);
                   _spawnedProcesses :=
                     (_spawnedProcesses (this w0)
                      ++ [spawn (_pathToKeybaseBinary (this w0))
                                (listen_args (this w0) channel options)])%list |};
        user := user w0 |},
     Normal {| child := spawn (_pathToKeybaseBinary (this w0))
                              (listen_args (this w0) channel options);
               child_on_error := fun message => logger_error ("got listen error " ++ message);
               child_on_exit := logger_info "got listen exit";
               child_on_close := logger_info "got listen close";
               child_on_disconnect := logger_info "got listen disconnect";
               stderr_on_line := fun line => logger_error ("stderr from listener: " ++ line);
               stdout_on_line := onLine onMessage onError options |}).
Proof. eexists. reflexivity. Qed.

Lemma attached_stdout onMessage onError channel options w0 l :
  result_of (_chatListen onMessage onError channel options w0) = Normal l ->
  stdout_on_line l = onLine onMessage onError options.
Proof.
  destruct (chatListen_runs onMessage onError channel options w0) as [text E].
  rewrite E. unfold result_of. simpl. now intros [= <-].
Qed.

Lemma attached_stderr onMessage onError channel options w0 l :
  result_of (_chatListen onMessage onError channel options w0) = Normal l ->
  stderr_on_line l = fun line => logger_error ("stderr from listener: " ++ line).
Proof.
  destruct (chatListen_runs onMessage onError channel options w0) as [text E].
  rewrite E. unfold result_of. simpl. now intros [= <-].
Qed.

Lemma attached_lifecycle onMessage onError channel options w0 l ev w :
  result_of (_chatListen onMessage onError channel options w0) = Normal l ->
  is_lifecycle ev = true ->
  exists entry, is_log entry = true /\ dispatch l ev w = ([entry], w, Normal tt).
Proof.
  destruct (chatListen_runs onMessage onError channel options w0) as [text E].
  rewrite E. unfold result_of. simpl. intros [= <-] Hev.
  destruct ev; try discriminate; simpl; eexists; (split; [|reflexivity]); reflexivity.
Qed.

(** *** Runs *)

Lemma run_step {l ev w tr w1} rest :
  dispatch l ev w = (tr, w1, Normal tt) ->
  run l (ev :: rest) w = after tr (run l rest w1).
Proof. intros H. exact (bind_normal (dispatch l ev) (fun _ => run l rest) H). Qed.

Lemma run_stop {l ev w tr w1 e} rest :
  dispatch l ev w = (tr, w1, Abrupt e) ->
  run l (ev :: rest) w = (tr, w1, Abrupt e).
Proof. intros H. exact (bind_abrupt (dispatch l ev) (fun _ => run l rest) H). Qed.

Lemma run_app {l evs1 w tr w1} evs2 :
  run l evs1 w = (tr, w1, Normal tt) ->
  run l (evs1 ++ evs2) w = after tr (run l evs2 w1).
Proof.
  revert w tr. induction evs1 as [|ev evs1 IH]; intros w tr H.
  - simpl in H. injection H as <- <-. simpl. now rewrite after_nil.
  - rewrite <- app_comm_cons.
    destruct (dispatch l ev w) as [[tr0 w0] [[]|e]] eqn:D.
    + rewrite (run_step _ D) in H. rewrite (run_step _ D).
      destruct (run l evs1 w0) as [[tr2 w2] c2] eqn:R.
      unfold after, trace_of, world_of, result_of in H. simpl in H.
      injection H as <- <- ->.
      rewrite (IH _ _ R). now rewrite after_after.
    + rewrite (run_stop _ D) in H. discriminate.
Qed.

Lemma logs_have_no_calls tr :
  forallb is_log tr = true ->
  calls tr = [] /\ message_calls tr = [] /\ error_calls tr = [].
Proof.
  induction tr as [|ev tr IH]; simpl; [now auto|].
  intros H. apply andb_true_iff in H as [Hev Htr].
  destruct (IH Htr) as (Hc & Hm & He).
  unfold calls in *. simpl. rewrite Hev. simpl.
  destruct ev; try discriminate; simpl; auto.
Qed.

(** *** The invocation *)

(** C5: [_chatListen] spawns the binary with the arguments
    [--home <dir>] (only with a home directory configured), [chat],
    [api-listen], [--hide-exploding] unless [hideExploding] is explicitly
    false, [--local] exactly when [showLocal] is true, and
    [--filter-channel <json>] exactly when a channel is given, in this
    order, and registers the process. *)
Theorem listen_invocation_shape (onMessage : @OnMessage U) onError channel options w0 :
  exists tr w1 l,
    _chatListen onMessage onError channel options w0 = (tr, w1, Normal l) /\
    In (child l) (_spawnedProcesses (this w1)) /\
    spawnfile (child l) = _pathToKeybaseBinary (this w0) /\
    spawnargs (child l) =
      (home_prefix (this w0)
       ++ ["chat"; "api-listen"]
       ++ (if hides_exploding options then ["--hide-exploding"] else [])
       ++ (if options_showLocal options then ["--local"] else [])
       ++ filter_flag channel)%list /\
    (home_prefix (this w0) <> [] -> exists dir, homeDir (this w0) = Some dir) /\
    (hides_exploding options = false <->
       exists o, options = Some o /\ hideExploding o = Some false) /\
    (options_showLocal options = true <->
       exists o, options = Some o /\ showLocal o = Some true) /\
    (filter_flag channel <> [] <-> channel <> None).
Proof.
  destruct (chatListen_runs onMessage onError channel options w0) as [text E].
  do 3 eexists. split; [exact E|]. simpl.
  split; [apply in_or_app; right; now left|].
  split; [reflexivity|].
  split; [apply listen_args_shape|].
  split; [|split; [|split]].
  - unfold home_prefix. destruct (homeDir (this w0)) as [dir|]; [eauto|congruence].
  - unfold hides_exploding. destruct options as [[[[|]|] local]|]; simpl; split; intros Hx;
      try discriminate;
      try (destruct Hx as (o & Ho & Hf); inversion Ho; subst; discriminate);
      eauto.
  - unfold options_showLocal. destruct options as [[hide [[|]|]]|]; simpl; split; intros Hx;
      try discriminate;
      try (destruct Hx as (o & Ho & Hf); inversion Ho; subst; discriminate);
      eauto.
  - unfold filter_flag. destruct channel; split; congruence.
Qed.

(** *** Stderr and the lifecycle of the child *)

(** C6: the channel given to [_chatListen] does not reach the line
    handler: two subscriptions that differ only in the channel handle every
    stdout line alike (same log, same callback calls, same end). *)
Theorem delivery_ignores_channel (onMessage : @OnMessage U) onError options
    channel1 channel2 wa wb l1 l2 :
  result_of (_chatListen onMessage onError channel1 options wa) = Normal l1 ->
  result_of (_chatListen onMessage onError channel2 options wb) = Normal l2 ->
  forall line w, stdout_on_line l1 line w = stdout_on_line l2 line w.
Proof.
  intros H1 H2 line w.
  now rewrite (attached_stdout _ _ _ _ _ _ H1), (attached_stdout _ _ _ _ _ _ H2).
Qed.

(** C7: every stderr line goes to the logger only.  Whatever the lines
    hold, handling them calls neither [onMessage] nor [onError], and
    leaves the client and the caller's state as they were. *)
Theorem stderr_lines_only_logged (onMessage : @OnMessage U) onError channel options w0 l :
  result_of (_chatListen onMessage onError channel options w0) = Normal l ->
  forall lines w,
    run l (map StderrLine lines) w =
      (map (fun line => LogError ("stderr from listener: " ++ line)) lines, w, Normal tt) /\
    message_calls (trace_of (run l (map StderrLine lines) w)) = [] /\
    error_calls (trace_of (run l (map StderrLine lines) w)) = [].
Proof.
  intros H lines w.
  assert (E : run l (map StderrLine lines) w =
              (map (fun line => LogError ("stderr from listener: " ++ line)) lines,
               w, Normal tt)).
  { induction lines as [|line lines IH]; [reflexivity|].
    change (map StderrLine (line :: lines)) with (StderrLine line :: map StderrLine lines).
    rewrite (@run_step l (StderrLine line) w
               [LogError ("stderr from listener: " ++ line)] w).
    - rewrite IH. reflexivity.
    - simpl. now rewrite (attached_stderr _ _ _ _ _ _ H). }
  split; [exact E|]. rewrite E. unfold trace_of. simpl.
  apply logs_have_no_calls.
  clear. induction lines; simpl; auto.
Qed.

(** C8: the handlers of the child's error, exit, close and disconnect
    events only write to the log.  A run of such events ends normally with
    the client (registry and identity included) and the caller's state
    untouched, and dropping them from any run of events changes neither the
    callback calls, nor the final state, nor how the run ends. *)
Theorem lifecycle_handlers_only_log (onMessage : @OnMessage U) onError channel options w0 l :
  result_of (_chatListen onMessage onError channel options w0) = Normal l ->
  (forall evs w,
     forallb is_lifecycle evs = true ->
     world_of (run l evs w) = w /\
     result_of (run l evs w) = Normal tt /\
     forallb is_log (trace_of (run l evs w)) = true) /\
  (forall evs w,
     let others := filter (fun ev => negb (is_lifecycle ev)) evs in
     calls (trace_of (run l evs w)) = calls (trace_of (run l others w)) /\
     world_of (run l evs w) = world_of (run l others w) /\
     result_of (run l evs w) = result_of (run l others w)).
Proof.
  intros H. split.
  - induction evs as [|ev evs IH]; intros w Hall; [now auto|].
    simpl in Hall. apply andb_true_iff in Hall as [Hev Hevs].
    destruct (attached_lifecycle _ _ _ _ _ _ ev w H Hev) as (entry & Hlog & D).
    rewrite (run_step _ D).
    destruct (IH w Hevs) as (Hw & Hr & Ht).
    unfold after, world_of, result_of, trace_of in *. simpl.
    rewrite Hlog. auto.
  - induction evs as [|ev evs IH]; intros w; [now auto|].
    simpl. destruct (is_lifecycle ev) eqn:Hev; simpl.
    + destruct (attached_lifecycle _ _ _ _ _ _ ev w H Hev) as (entry & Hlog & D).
      change (calls (trace_of (run l (ev :: evs) w)) =
              calls (trace_of (run l (filter (fun ev => negb (is_lifecycle ev)) evs) w)) /\
              world_of (run l (ev :: evs) w) =
              world_of (run l (filter (fun ev => negb (is_lifecycle ev)) evs) w) /\
              result_of (run l (ev :: evs) w) =
              result_of (run l (filter (fun ev => negb (is_lifecycle ev)) evs) w)).
      rewrite (run_step _ D).
      destruct (IH w) as (Hc & Hw & Hr).
      unfold after, world_of, result_of, trace_of in *. simpl.
      unfold calls in *. simpl. rewrite Hlog. simpl. auto.
    + change (calls (trace_of (run l (ev :: evs) w)) =
              calls (trace_of
                       (run l (ev :: filter (fun ev => negb (is_lifecycle ev)) evs) w)) /\
              world_of (run l (ev :: evs) w) =
              world_of (run l (ev :: filter (fun ev => negb (is_lifecycle ev)) evs) w) /\
              result_of (run l (ev :: evs) w) =
              result_of (run l (ev :: filter (fun ev => negb (is_lifecycle ev)) evs) w)).
      destruct (dispatch l ev w) as [[tr1 w1] [[]|e]] eqn:D.
      * rewrite !(run_step _ D).
        destruct (IH w1) as (Hc & Hw & Hr).
        unfold after, world_of, result_of, trace_of in *. simpl.
        rewrite !calls_app, Hc. auto.
      * rewrite !(run_stop _ D). auto.
Qed.

(** *** The line handler *)

(** C1, as the code has it: with [showLocal] on, every decoded success
    notification is handed to [onMessage].  With it off and the session's
    username and device name both set, a notification whose sender can be
    read is handed to [onMessage], once, exactly when the sender's
    username, as received, differs from the session's username in lower
    case, or the sender's device name differs from the session's (a field
    that is missing or not a string differs); a notification whose sender
    cannot be read, for want of [msg] or [msg.sender], is not handed to
    [onMessage]. *)
Theorem self_origin_filter (onMessage : @OnMessage U) onError options line v w :
  decoded line = Some v ->
  success v ->
  let tr := trace_of (onLine onMessage onError options line w) in
  exists msg,
    get v "msg" = Normal msg /\
    (options_showLocal options = true -> message_calls tr = [msg]) /\
    (options_showLocal options = false ->
     forall name device,
       username (this w) = Some name -> devicename (this w) = Some device ->
       name <> "" -> device <> "" ->
       match sender_of msg with
       | Some (sender_username, sender_deviceName) =>
           (sender_username <> Str (toLowerCase name)
            \/ sender_deviceName <> Str device ->
            message_calls tr = [msg]) /\
           (sender_username = Str (toLowerCase name) ->
            sender_deviceName = Str device ->
            message_calls tr = [])
       | None => message_calls tr = []
       end).
Proof.
  intros Hdec Hs tr. subst tr. rewrite onLine_verdict.
  rewrite (verdict_success _ _ Hdec Hs).
  destruct (success_readable "msg" Hs) as [msg Hmsg].
  exists msg. split; [exact Hmsg|].
  assert (D : message_calls
                (trace_of (after [LogInfo ("stdout from listener: " ++ line)]
                             (settle onMessage onError (Deliver msg) w))) = [msg]).
  { rewrite settle_deliver. simpl.
    destruct (fst (onMessage msg (user w))); try reflexivity.
    unfold after, trace_of. simpl.
    destruct onError as [f|]; [now rewrite catch_clause_call | reflexivity]. }
  assert (F : forall e,
             message_calls
               (trace_of (after [LogInfo ("stdout from listener: " ++ line)]
                            (settle onMessage onError (Fail e) w))) = []).
  { intros e. unfold after, trace_of, settle. simpl.
    destruct onError as [f|]; [now rewrite catch_clause_call | reflexivity]. }
  split.
  - intros Hlocal. rewrite (fire_showLocal _ _ _ Hlocal), Hmsg. exact D.
  - intros Hlocal name device Hname Hdevice Hn Hd.
    destruct (sender_of msg) as [[su sd]|] eqn:Hsender.
    + rewrite (fire_with_sender su sd Hlocal Hname Hdevice Hn Hd Hmsg Hsender).
      split.
      * intros Hdiff.
        replace (strict_neq su (toLowerCase name) || strict_neq sd device) with true.
        -- rewrite Hmsg. exact D.
        -- symmetry. apply orb_true_iff.
           destruct Hdiff as [H | H]; [left | right]; now apply strict_neq_true.
      * intros -> ->. simpl. now rewrite !String.eqb_refl.
    + destruct (fire_without_sender Hlocal Hname Hdevice Hn Hd Hmsg Hsender) as [e ->].
      apply F.
Qed.

(** C2, as the code has it: a failure thrown by [onMessage] while a line
    is delivered is caught by the line handler.  With no [onError] it is
    dropped, the handler returns and the following lines are handled; with
    an [onError] it is passed to it, once, and the following lines are
    handled if that call returns.  Only a failure thrown by [onError]
    itself leaves the handler. *)
Theorem onMessage_failure_is_caught (onMessage : @OnMessage U) onError channel options w0 l :
  result_of (_chatListen onMessage onError channel options w0) = Normal l ->
  forall line rest v msg e w,
    decoded line = Some v ->
    success v ->
    fire_condition (this w) options v = Normal true ->
    get v "msg" = Normal msg ->
    fst (onMessage msg (user w)) = Throws e ->
    let w1 := {| this := this w; user := snd (onMessage msg (user w)) |} in
    let delivery := [LogInfo ("stdout from listener: " ++ line); CallMessage msg] in
    match onError with
    | None =>
        stdout_on_line l line w = (delivery, w1, Normal tt) /\
        run l (StdoutLine line :: rest) w = after delivery (run l rest w1)
    | Some f =>
        let w2 := {| this := this w; user := snd (f e (user w1)) |} in
        trace_of (stdout_on_line l line w) = (delivery ++ [CallError e])%list /\
        match fst (f e (user w1)) with
        | Throws e2 =>
            stdout_on_line l line w = ((delivery ++ [CallError e])%list, w2, Abrupt e2)
        | _ =>
            run l (StdoutLine line :: rest) w =
              after (delivery ++ [CallError e]) (run l rest w2)
        end
    end.
Proof.
  intros Hl line rest v msg e w Hdec Hs Hfire Hmsg Hthrow w1 delivery.
  assert (D : stdout_on_line l line w =
              after [LogInfo ("stdout from listener: " ++ line)]
                    (after [CallMessage msg] (catch_clause onError e w1))).
  { rewrite (attached_stdout _ _ _ _ _ _ Hl), onLine_verdict.
    rewrite (verdict_success _ _ Hdec Hs), Hfire, Hmsg, settle_deliver.
    simpl. now rewrite Hthrow. }
  rewrite after_after in D.
  destruct onError as [f|].
  - rewrite catch_clause_call in D. cbv zeta.
    split; [now rewrite D|].
    destruct (fst (f e (user w1))) eqn:Hf;
      [apply run_step | apply run_step | ]; exact D.
  - rewrite catch_clause_none in D. split; [exact D|]. apply run_step. exact D.
Qed.

(** A promise that [onMessage] returns is not looked at: when it rejects,
    nothing in the handler hears of it. *)
Lemma rejected_promise_is_not_handled (onMessage : @OnMessage U) onError options
    line v msg e w :
  decoded line = Some v ->
  success v ->
  fire_condition (this w) options v = Normal true ->
  get v "msg" = Normal msg ->
  fst (onMessage msg (user w)) = Rejects e ->
  onLine onMessage onError options line w =
    ([LogInfo ("stdout from listener: " ++ line); CallMessage msg],
     {| this := this w; user := snd (onMessage msg (user w)) |}, Normal tt).
Proof.
  intros Hdec Hs Hfire Hmsg Hrej.
  rewrite onLine_verdict, (verdict_success _ _ Hdec Hs), Hfire, Hmsg, settle_deliver.
  simpl. now rewrite Hrej.
Qed.

(** C3, as the code has it: a stdout line that is malformed JSON, or that
    carries an [error] field, makes the handler call [onError] exactly
    once, and [onMessage] not at all.  When that call returns, the handler
    returns and the lines after it are handled as usual: the events of the
    whole run are those of the lines before, the [onError] call, and those
    of the lines after, in this order.  When that call throws, what it
    threw leaves the handler, and the run, there: the lines after are not
    handled. *)
Theorem failed_line_is_reported_once (onMessage : @OnMessage U) (f : @OnError U)
    channel options w0 l :
  result_of (_chatListen onMessage (Some f) channel options w0) = Normal l ->
  forall line e,
    failed_line line e ->
    let here := [LogInfo ("stdout from listener: " ++ line); CallError e] in
    (forall w,
       let r := stdout_on_line l line w in
       trace_of r = here /\
       error_calls (trace_of r) = [e] /\
       message_calls (trace_of r) = [] /\
       world_of r = {| this := this w; user := snd (f e (user w)) |} /\
       result_of r = match fst (f e (user w)) with
                     | Throws thrown => Abrupt thrown
                     | _ => Normal tt
                     end) /\
    (forall before following w tr1 w1,
       run l (map StdoutLine before) w = (tr1, w1, Normal tt) ->
       let w2 := {| this := this w1; user := snd (f e (user w1)) |} in
       match fst (f e (user w1)) with
       | Throws thrown =>
           run l (map StdoutLine (before ++ line :: following)) w
             = ((tr1 ++ here)%list, w2, Abrupt thrown)
       | _ =>
           run l (map StdoutLine (before ++ line :: following)) w
             = after (tr1 ++ here) (run l (map StdoutLine following) w2)
       end).
Proof.
  intros Hl line e Hfail here.
  assert (D : forall w,
             stdout_on_line l line w =
               (here, {| this := this w; user := snd (f e (user w)) |},
                match fst (f e (user w)) with
                | Throws thrown => Abrupt thrown
                | _ => Normal tt
                end)).
  { intros w. rewrite (attached_stdout _ _ _ _ _ _ Hl), onLine_verdict.
    rewrite (verdict_failed _ _ Hfail). unfold settle. now rewrite catch_clause_call. }
  split.
  - intros w r. subst r. rewrite D. unfold trace_of, world_of, result_of. simpl.
    repeat split.
  - intros before following w tr1 w1 Hbefore w2.
    rewrite map_app. rewrite (run_app _ Hbefore).
    change (map StdoutLine (line :: following))
      with (StdoutLine line :: map StdoutLine following).
    pose proof (D w1) as D1. fold w2 in D1.
    change (stdout_on_line l line w1) with (dispatch l (StdoutLine line) w1) in D1.
    destruct (fst (f e (user w1))).
    + rewrite (run_step _ D1). now rewrite after_after.
    + rewrite (run_step _ D1). now rewrite after_after.
    + rewrite (run_stop _ D1).
      unfold after, trace_of, world_of, result_of. reflexivity.
Qed.

(** C4, as the code has it: with default options and the session's
    identity set, a line that decodes to a success notification whose
    sender differs from the session (its username, as received, from the
    session's username in lower case, or its device name from the
    session's) makes the handler call [onMessage] exactly once, with the
    [msg] field.  It calls [onError] for that line only when that
    [onMessage] call throws: then once, with what was thrown, if there is
    an [onError]. *)
Theorem distinct_sender_is_delivered_once (onMessage : @OnMessage U) onError
    line v msg sender_username sender_deviceName name device w :
  decoded line = Some v ->
  success v ->
  get v "msg" = Normal msg ->
  sender_of msg = Some (sender_username, sender_deviceName) ->
  username (this w) = Some name -> devicename (this w) = Some device ->
  name <> "" -> device <> "" ->
  sender_username <> Str (toLowerCase name) \/ sender_deviceName <> Str device ->
  let tr := trace_of (onLine onMessage onError None line w) in
  message_calls tr = [msg] /\
  match fst (onMessage msg (user w)) with
  | Throws thrown =>
      error_calls tr = match onError with Some _ => [thrown] | None => [] end
  | _ => error_calls tr = []
  end.
Proof.
  intros Hdec Hs Hmsg Hsender Hname Hdevice Hn Hd Hdiff tr. subst tr.
  rewrite onLine_verdict.
  rewrite (verdict_success _ _ Hdec Hs).
  rewrite (@fire_with_sender (this w) None v msg name device
             sender_username sender_deviceName eq_refl Hname Hdevice Hn Hd Hmsg Hsender).
  replace (strict_neq sender_username (toLowerCase name)
           || strict_neq sender_deviceName device) with true.
  - rewrite Hmsg, settle_deliver. simpl.
    destruct (fst (onMessage msg (user w))); simpl;
      try (split; [reflexivity | reflexivity]).
    unfold after, trace_of. simpl.
    destruct onError as [f|]; [rewrite catch_clause_call | rewrite catch_clause_none];
      split; reflexivity.
  - symmetry. apply orb_true_iff.
    destruct Hdiff as [H | H]; [left | right]; now apply strict_neq_true.
Qed.

(** C9: with [showLocal] off and the session's username or device name
    unset (or empty), a decoded success notification only reaches the log:
    neither [onMessage] nor [onError] is called. *)
Theorem no_identity_suppresses_everything (onMessage : @OnMessage U) onError
    options line v w :
  decoded line = Some v ->
  success v ->
  options_showLocal options = false ->
  truthy (username (this w)) = false \/ truthy (devicename (this w)) = false ->
  onLine onMessage onError options line w =
    ([LogInfo ("stdout from listener: " ++ line)], w, Normal tt) /\
  message_calls (trace_of (onLine onMessage onError options line w)) = [] /\
  error_calls (trace_of (onLine onMessage onError options line w)) = [].
Proof.
  intros Hdec Hs Hlocal Hid.
  assert (E : onLine onMessage onError options line w =
              ([LogInfo ("stdout from listener: " ++ line)], w, Normal tt)).
  { rewrite onLine_verdict, (verdict_success _ _ Hdec Hs).
    now rewrite (fire_without_identity _ _ _ Hlocal Hid). }
  rewrite E. auto.
Qed.

(** C10: with no [onError], a line that is malformed JSON or that carries
    an [error] field is dropped after it is logged: the handler returns, no
    callback is called, nothing changes, and the following lines are
    handled. *)
Theorem failed_line_without_onError (onMessage : @OnMessage U) channel options w0 l :
  result_of (_chatListen onMessage None channel options w0) = Normal l ->
  forall line e rest w,
    failed_line line e ->
    stdout_on_line l line w =
      ([LogInfo ("stdout from listener: " ++ line)], w, Normal tt) /\
    run l (StdoutLine line :: rest) w =
      after [LogInfo ("stdout from listener: " ++ line)] (run l rest w).
Proof.
  intros Hl line e rest w Hfail.
  assert (D : stdout_on_line l line w =
              ([LogInfo ("stdout from listener: " ++ line)], w, Normal tt)).
  { rewrite (attached_stdout _ _ _ _ _ _ Hl), onLine_verdict.
    now rewrite (verdict_failed _ _ Hfail). }
  split; [exact D|]. now apply run_step.
Qed.

End Properties.

(** ** The listener at work

    The theorems above applied to sample lines, in the concrete
    environment. *)

Import Samples.

(** The stand-in for [toLowerCase] has the two properties of the method
    that the theorems above ask for. *)
Lemma demo_lower_ascii_idempotent c :
  Demo.lower_ascii (Demo.lower_ascii c) = Demo.lower_ascii c.
Proof.
  unfold Demo.lower_ascii.
  destruct (Nat.leb 65 (nat_of_ascii c) && Nat.leb (nat_of_ascii c) 90) eqn:E; [|now rewrite E].
  apply andb_true_iff in E as [H1 H2].
  apply Nat.leb_le in H1, H2.
  rewrite nat_ascii_embedding by lia.
  replace (Nat.leb (nat_of_ascii c + 32) 90) with false
    by (symmetry; apply Nat.leb_gt; lia).
  now rewrite andb_false_r.
Qed.

Lemma demo_toLowerCase_idempotent s :
  Demo.toLowerCase (Demo.toLowerCase s) = Demo.toLowerCase s.
Proof.
  induction s as [|c s IH]; simpl; [reflexivity|].
  now rewrite demo_lower_ascii_idempotent, IH.
Qed.

Lemma demo_toLowerCase_empty s : Demo.toLowerCase s = "" <-> s = "".
Proof. destruct s; simpl; split; intros H; (reflexivity || discriminate). Qed.

Example toLowerCase_sample : toLowerCase "Bot_42" = "bot_42".
Proof. reflexivity. Qed.

Example decode_scenario : decoded scenario_line = Some scenario_document.
Proof. reflexivity. Qed.

Example decode_malformed : JSON_parse malformed_line = None.
Proof. reflexivity. Qed.

(** The four cases of the self-origin filter for the session [bot] on [d1]. *)
Example own_echo_is_suppressed :
  message_calls (trace_of (onLine counting (Some counting) None
                             (notification_line "bot" "d1" "echo")
                             (session (Some "bot") (Some "d1")))) = [].
Proof. reflexivity. Qed.

Example other_device_is_delivered :
  message_calls (trace_of (onLine counting (Some counting) None
                             (notification_line "bot" "d2" "echo")
                             (session (Some "bot") (Some "d1"))))
  = [summary "bot" "d2" "echo"].
Proof. reflexivity. Qed.

Example other_user_is_delivered :
  message_calls (trace_of (onLine counting (Some counting) None
                             (notification_line "other" "d1" "echo")
                             (session (Some "bot") (Some "d1"))))
  = [summary "other" "d1" "echo"].
Proof. reflexivity. Qed.

Example showLocal_delivers_own_echo :
  message_calls (trace_of (onLine counting (Some counting)
                             (Some {| hideExploding := None; showLocal := Some true |})
                             (notification_line "bot" "d1" "echo")
                             (session (Some "bot") (Some "d1"))))
  = [summary "bot" "d1" "echo"].
Proof. reflexivity. Qed.

Example listen_args_sample :
  listen_args {| username := Some "bot"; devicename := Some "d1";
                 homeDir := Some "/tmp/kb"; _spawnedProcesses := [] |}
              (Some "general")
              (Some {| hideExploding := Some false; showLocal := Some true |})
  = ["--home"; "/tmp/kb"; "chat"; "api-listen"; "--local"; "--filter-channel";
     "{" ++ Demo.quoted "name" ++ ":" ++ Demo.quoted "general" ++ "}"].
Proof. reflexivity. Qed.

Example listen_args_default :
  listen_args (this (session (Some "bot") (Some "d1"))) (None : option ChatChannel) None
  = ["chat"; "api-listen"; "--hide-exploding"].
Proof. reflexivity. Qed.

Lemma self_origin_filter_witness :
  decoded (notification_line "bot" "d2" "echo")
    = Some (Obj [("msg", summary "bot" "d2" "echo")]) /\
  message_calls (trace_of (onLine counting None None
                             (notification_line "bot" "d2" "echo")
                             (session (Some "bot") (Some "d1"))))
    = [summary "bot" "d2" "echo"].
Proof.
  split; [reflexivity|].
  destruct (@self_origin_filter nat demo counting None None
              (notification_line "bot" "d2" "echo")
              (Obj [("msg", summary "bot" "d2" "echo")])
              (session (Some "bot") (Some "d1")) eq_refl eq_refl)
    as (msg & Hmsg & _ & Hfilter).
  injection Hmsg as <-.
  assert (Hname : "bot" <> "") by discriminate.
  assert (Hdevice : "d1" <> "") by discriminate.
  apply (proj1 (Hfilter eq_refl "bot" "d1" eq_refl eq_refl Hname Hdevice)).
  right. discriminate.
Defined.

(** The claim of C1 as the specification words it fails: the session
    [bot] on [d1] receives its own echo when the line spells the name
    [Bot], although the sender differs from the session neither by
    username without regard to case nor by device name. *)
Lemma capitalised_own_echo_is_delivered :
  decoded capital_line = Some capital_document /\
  sent_by capital_document (summary "Bot" "d1" "echo") "Bot" "d1" /\
  ~ differs_ignoring_case "Bot" "d1" "bot" "d1" /\
  message_calls (trace_of (onLine counting None None capital_line
                             (session (Some "bot") (Some "d1"))))
    = [summary "Bot" "d1" "echo"].
Proof.
  split; [reflexivity|]. split; [|split; [|reflexivity]].
  - split; [reflexivity|]. split; [reflexivity|].
    eexists. repeat split; reflexivity.
  - intros [H | H]; apply H; reflexivity.
Qed.

(** The claim of C2 as the specification words it fails: [onMessage]
    throws while the scenario line is delivered, and the handler returns
    normally all the same, the failure dropped when there is no [onError]
    and passed to [onError] when there is one. *)
Lemma thrown_failure_is_swallowed :
  fst (failing (summary "bob" "x" "hi") 0) = Throws (Failure "boom") /\
  (let r := onLine failing None None scenario_line (session (Some "alice") (Some "y")) in
   message_calls (trace_of r) = [summary "bob" "x" "hi"] /\
   error_calls (trace_of r) = [] /\
   result_of r = Normal tt) /\
  (let r := onLine failing (Some counting) None scenario_line
              (session (Some "alice") (Some "y")) in
   message_calls (trace_of r) = [summary "bob" "x" "hi"] /\
   error_calls (trace_of r) = [Failure "boom"] /\
   result_of r = Normal tt).
Proof. repeat split; reflexivity. Qed.

Lemma onMessage_failure_is_caught_witness :
  exists l,
    result_of (_chatListen failing (Some counting) None None
                 (session (Some "alice") (Some "y"))) = Normal l /\
    run l [StdoutLine scenario_line; StdoutLine scenario_line]
        (session (Some "alice") (Some "y")) =
      after [LogInfo ("stdout from listener: " ++ scenario_line);
             CallMessage (summary "bob" "x" "hi");
             CallError (Failure "boom")]
            (run l [StdoutLine scenario_line]
                 {| this := this (session (Some "alice") (Some "y")); user := 2 |}).
Proof.
  eexists. split; [reflexivity|].
  exact (proj2 (@onMessage_failure_is_caught nat demo failing (Some counting) None None
                  (session (Some "alice") (Some "y")) _ eq_refl
                  scenario_line [StdoutLine scenario_line] scenario_document
                  (summary "bob" "x" "hi") (Failure "boom")
                  (session (Some "alice") (Some "y"))
                  eq_refl eq_refl eq_refl eq_refl eq_refl)).
Defined.

Lemma failed_line_is_reported_once_witness :
  exists l,
    result_of (_chatListen counting (Some counting) None None
                 (session (Some "alice") (Some "y"))) = Normal l /\
    let r := run l (map StdoutLine [scenario_line; malformed_line; error_line "boom";
                                    notification_line "carol" "z" "yo"])
                 (session (Some "alice") (Some "y")) in
    calls (trace_of r) =
      [CallMessage (summary "bob" "x" "hi");
       CallError (SyntaxError malformed_line);
       CallError (ErrorOf (Str "boom"));
       CallMessage (summary "carol" "z" "yo")] /\
    result_of r = Normal tt.
Proof.
  eexists. split; [reflexivity|].
  pose proof (proj2 (@failed_line_is_reported_once nat demo counting counting None None
                       (session (Some "alice") (Some "y")) _ eq_refl
                       malformed_line (SyntaxError malformed_line)
                       (@malformed demo malformed_line eq_refl))
                [scenario_line]
                [error_line "boom"; notification_line "carol" "z" "yo"]
                (session (Some "alice") (Some "y")) _ _ eq_refl) as E.
  cbv zeta. split.
  - exact (eq_trans (f_equal (fun r => calls (trace_of r)) E) eq_refl).
  - exact (eq_trans (f_equal (fun r => result_of r) E) eq_refl).
Defined.

(** The claim of C3 as the specification words it fails: with an
    [onError] that throws, the malformed first line ends the run, and the
    scenario line after it, which would be delivered, is not handled. *)
Lemma throwing_onError_ends_the_run :
  JSON_parse malformed_line = None /\
  message_calls (trace_of (onLine counting (Some failing) None scenario_line
                             (session (Some "alice") (Some "y"))))
    = [summary "bob" "x" "hi"] /\
  exists l,
    result_of (_chatListen counting (Some failing) None None
                 (session (Some "alice") (Some "y"))) = Normal l /\
    let r := run l (map StdoutLine [malformed_line; scenario_line])
                 (session (Some "alice") (Some "y")) in
    result_of r = Abrupt (Failure "boom") /\
    error_calls (trace_of r) = [SyntaxError malformed_line] /\
    message_calls (trace_of r) = [].
Proof.
  split; [reflexivity|]. split; [reflexivity|].
  eexists. split; [reflexivity|]. repeat split.
Qed.

Lemma distinct_sender_is_delivered_once_witness :
  get (summary "bob" "x" "hi") "body" = Normal (Str "hi") /\
  message_calls (trace_of (onLine counting (Some counting) None scenario_line
                             (session (Some "alice") (Some "y"))))
    = [summary "bob" "x" "hi"] /\
  error_calls (trace_of (onLine counting (Some counting) None scenario_line
                           (session (Some "alice") (Some "y")))) = [].
Proof.
  split; [reflexivity|].
  assert (Hdiff : Str "bob" <> Str (toLowerCase "alice") \/ Str "x" <> Str "y")
    by (left; discriminate).
  assert (Hname : "alice" <> "") by discriminate.
  assert (Hdevice : "y" <> "") by discriminate.
  exact (@distinct_sender_is_delivered_once nat demo counting (Some counting)
           scenario_line scenario_document (summary "bob" "x" "hi")
           (Str "bob") (Str "x") "alice" "y" (session (Some "alice") (Some "y"))
           eq_refl eq_refl eq_refl eq_refl eq_refl eq_refl Hname Hdevice Hdiff).
Defined.

(** The claim of C4 as the specification words it fails: the scenario
    line comes from a sender that differs from the session, by username
    and by device, [onMessage] is called with its payload and throws, and
    [onError] is called for that line. *)
Lemma throwing_onMessage_reaches_onError :
  decoded scenario_line = Some scenario_document /\
  sent_by scenario_document (summary "bob" "x" "hi") "bob" "x" /\
  differs_ignoring_case "bob" "x" "alice" "y" /\
  message_calls (trace_of (onLine failing (Some counting) None scenario_line
                             (session (Some "alice") (Some "y"))))
    = [summary "bob" "x" "hi"] /\
  error_calls (trace_of (onLine failing (Some counting) None scenario_line
                           (session (Some "alice") (Some "y"))))
    = [Failure "boom"].
Proof.
  split; [reflexivity|]. split; [|split; [left; discriminate|split; reflexivity]].
  split; [reflexivity|]. split; [reflexivity|].
  eexists. repeat split; reflexivity.
Qed.

Lemma delivery_ignores_channel_witness :
  exists l1 l2,
    result_of (_chatListen counting (Some counting) None None
                 (session (Some "alice") (Some "y"))) = Normal l1 /\
    result_of (_chatListen counting (Some counting) (Some "general") None
                 (session (Some "alice") (Some "y"))) = Normal l2 /\
    spawnargs (child l1) <> spawnargs (child l2) /\
    stdout_on_line l1 scenario_line (session (Some "alice") (Some "y")) =
    stdout_on_line l2 scenario_line (session (Some "alice") (Some "y")).
Proof.
  do 2 eexists. split; [reflexivity|]. split; [reflexivity|]. split; [discriminate|].
  exact (@delivery_ignores_channel nat demo counting (Some counting) None
           None (Some "general")
           (session (Some "alice") (Some "y")) (session (Some "alice") (Some "y"))
           _ _ eq_refl eq_refl scenario_line (session (Some "alice") (Some "y"))).
Defined.

Lemma stderr_lines_only_logged_witness :
  exists l,
    result_of (_chatListen counting (Some counting) None None
                 (session (Some "alice") (Some "y"))) = Normal l /\
    let r := run l (map StderrLine [error_line "boom"; malformed_line; scenario_line])
                 (session (Some "alice") (Some "y")) in
    message_calls (trace_of r) = [] /\ error_calls (trace_of r) = [].
Proof.
  eexists. split; [reflexivity|].
  exact (proj2 (@stderr_lines_only_logged nat demo counting (Some counting) None None
                  (session (Some "alice") (Some "y")) _ eq_refl
                  [error_line "boom"; malformed_line; scenario_line]
                  (session (Some "alice") (Some "y")))).
Defined.

Lemma lifecycle_handlers_only_log_witness :
  exists l,
    result_of (_chatListen counting (Some counting) None None
                 (session (Some "alice") (Some "y"))) = Normal l /\
    forall w,
      world_of (run l [ChildError "spawn keybase ENOENT"; ChildExit; ChildClose;
                       ChildDisconnect] w) = w.
Proof.
  eexists. split; [reflexivity|]. intros w.
  exact (proj1 (proj1 (@lifecycle_handlers_only_log nat demo counting (Some counting)
                         None None (session (Some "alice") (Some "y")) _ eq_refl)
                  [ChildError "spawn keybase ENOENT"; ChildExit; ChildClose;
                   ChildDisconnect] w eq_refl)).
Defined.

Lemma no_identity_suppresses_everything_witness :
  onLine counting (Some counting) None scenario_line (session None (Some "y")) =
    ([LogInfo ("stdout from listener: " ++ scenario_line)],
     session None (Some "y"), Normal tt).
Proof.
  exact (proj1 (@no_identity_suppresses_everything nat demo counting (Some counting) None
                  scenario_line scenario_document (session None (Some "y"))
                  eq_refl eq_refl eq_refl (or_introl eq_refl))).
Defined.

Lemma failed_line_without_onError_witness :
  exists l,
    result_of (_chatListen counting None None None
                 (session (Some "alice") (Some "y"))) = Normal l /\
    run l [StdoutLine (error_line "boom"); StdoutLine scenario_line]
        (session (Some "alice") (Some "y")) =
      after [LogInfo ("stdout from listener: " ++ error_line "boom")]
            (run l [StdoutLine scenario_line] (session (Some "alice") (Some "y"))).
Proof.
  eexists. split; [reflexivity|].
  exact (proj2 (@failed_line_without_onError nat demo counting None None
                  (session (Some "alice") (Some "y")) _ eq_refl
                  (error_line "boom") (ErrorOf (Str "boom")) [StdoutLine scenario_line]
                  (session (Some "alice") (Some "y"))
                  (@error_field demo (error_line "boom") (Obj [("error", Str "boom")]) (Str "boom")
                     eq_refl eq_refl eq_refl))).
Defined.

(** ** The request methods: properties *)

Section RequestProperties.

Context {U : Type} {env : Collaborators} {base : ClientBase U}.

Import Api.

Implicit Types (w : world U) (r : request) (fields : object) (k : string).

(** *** Object literals *)

Lemma lookup_define_same k (v : value) fields : lookup k (define k v fields) = Some v.
Proof.
  induction fields as [|[k' v'] rest IH]; simpl.
  - now rewrite String.eqb_refl.
  - destruct (String.eqb k k') eqn:E; simpl.
    + now rewrite String.eqb_refl.
    + now rewrite E.
Qed.

Lemma lookup_define_other k k' (v : value) fields :
  k <> k' -> lookup k' (define k v fields) = lookup k' fields.
Proof.
  intros Hne. induction fields as [|[k0 v0] rest IH]; simpl.
  - replace (String.eqb k' k) with false; [reflexivity|].
    symmetry. apply String.eqb_neq. congruence.
  - destruct (String.eqb k k0) eqn:E; simpl.
    + apply String.eqb_eq in E. subst k0.
      replace (String.eqb k' k) with false; [reflexivity|].
      symmetry. apply String.eqb_neq. congruence.
    + now rewrite IH.
Qed.

Lemma keys_define k (v : value) fields :
  map fst (define k v fields) =
    if has_key k fields then map fst fields else (map fst fields ++ [k])%list.
Proof.
  unfold has_key. induction fields as [|[k' v'] rest IH]; simpl; [reflexivity|].
  destruct (String.eqb k k') eqn:E; simpl.
  - apply String.eqb_eq in E. now subst.
  - rewrite IH. now destruct (lookup k rest).
Qed.

Lemma has_key_in k fields : has_key k fields = true <-> In k (map fst fields).
Proof.
  unfold has_key. induction fields as [|[k' v'] rest IH]; simpl.
  - split; [discriminate | contradiction].
  - destruct (String.eqb k k') eqn:E.
    + apply String.eqb_eq in E. subst. split; auto.
    + rewrite IH. apply String.eqb_neq in E. split; [auto|].
      intros [H | H]; [congruence | exact H].
Qed.

Lemma nodup_define k (v : value) fields :
  NoDup (map fst fields) -> NoDup (map fst (define k v fields)).
Proof.
  intros H. rewrite keys_define. destruct (has_key k fields) eqn:E; [exact H|].
  apply NoDup_app; [exact H | repeat constructor; intros [] | ].
  intros x Hx [<- | []].
  apply has_key_in in Hx. congruence.
Qed.

(** *** Guard, command, response *)

(** Unfolds a request method down to its guard and its command. *)
Ltac open_request :=
  unfold perform, chat_list, listChannels, read, joinChannel, leaveChannel, send,
    createChannel, attach, download, react, delete, getUnfurlSettings,
    setUnfurlSettings, loadFlip, watchChannelForNewMessages,
    watchAllChannelsForNewMessages, logger_info, emit, bind, throw, ret, lift.

(** X1: no public method does anything before the client is initialized.
    When [_guardInitialized] rejects, each of the fourteen request methods
    and both watch methods rejects with the same error, having run no
    command and spawned no process. *)
Theorem every_method_is_guarded w tr w1 e :
  _guardInitialized w = (tr, w1, Abrupt e) ->
  (forall r, perform r w = (tr, w1, Abrupt e)) /\
  (forall channel onMessage onError options,
     watchChannelForNewMessages channel onMessage onError options w
       = (tr, w1, Abrupt e)) /\
  (forall onMessage onError options,
     watchAllChannelsForNewMessages onMessage onError options w = (tr, w1, Abrupt e)).
Proof.
  intros H. repeat split; intros.
  - destruct r; open_request; now rewrite H.
  - open_request. now rewrite H.
  - open_request. now rewrite H.
Qed.

(** X2: an empty response is an error.  When the command of a request
    comes back with a falsy value ([undefined], [null], [false], [0] or the
    empty string), the method rejects with its own "returned nothing"
    error, after the guard, its announcement and the command, and nothing
    else. *)
Theorem empty_response_is_an_error r w tr0 w1 tr1 w2 res :
  _guardInitialized w = (tr0, w1, Normal tt) ->
  _runApiCommand (command_of r) w1 = (tr1, w2, Normal res) ->
  is_truthy res = false ->
  perform r w =
    ((tr0 ++ announcement r ++ tr1)%list, w2,
     Abrupt (ErrorOf (Str (nothing_message r)))).
Proof.
  intros Hg Hr Hf.
  destruct r; open_request; rewrite Hg; simpl in Hr |- *; rewrite Hr, Hf; simpl;
    now rewrite ?app_nil_r.
Qed.

(** X3: a failure of the command itself is passed on as it is: the method
    rejects with the error [_runApiCommand] rejected with, neither caught
    nor wrapped, and looks at nothing else. *)
Theorem command_failure_is_passed_on r w tr0 w1 tr1 w2 e :
  _guardInitialized w = (tr0, w1, Normal tt) ->
  _runApiCommand (command_of r) w1 = (tr1, w2, Abrupt e) ->
  perform r w = ((tr0 ++ announcement r ++ tr1)%list, w2, Abrupt e).
Proof.
  intros Hg Hr.
  destruct r; open_request; rewrite Hg; simpl in Hr |- *; rewrite Hr; simpl;
    now rewrite ?app_nil_r.
Qed.

(** A truthy value has properties to read. *)
Lemma truthy_readable {v : value} k :
  is_truthy v = true -> exists x, get v k = Normal x.
Proof.
  destruct v; simpl; try discriminate; eauto.
  destruct (lookup k fields); eauto.
Qed.

(** *** What is sent *)

(** X4: the options [read] sends.  The channel is the one given as an
    argument, whatever [options] says; [peek] is [false] unless [options]
    holds a truthy [peek], which is then sent as it is; [unreadOnly] is
    [false] unless [options] holds one that is not [undefined], which is
    then sent as it is, falsy or not; every other option is passed
    through. *)
Theorem read_options_sent (channel : ChatChannel) (options : option object) :
  let sent := read_optionsWithDefaults channel options in
  lookup "channel" sent = Some (channel_value channel) /\
  lookup "peek" sent =
    Some (if is_truthy (property (spread options) "peek")
          then property (spread options) "peek" else Bool false) /\
  lookup "unreadOnly" sent =
    Some (match property (spread options) "unreadOnly" with
          | Undefined => Bool false
          | unreadOnly => unreadOnly
          end) /\
  (forall k, k <> "channel" -> k <> "peek" -> k <> "unreadOnly" ->
             lookup k sent = lookup k (spread options)).
Proof.
  unfold read_optionsWithDefaults. cbv zeta. repeat split.
  - rewrite !lookup_define_other by discriminate. apply lookup_define_same.
  - rewrite lookup_define_other by discriminate. rewrite lookup_define_same.
    now destruct options.
  - rewrite lookup_define_same. now destruct options.
  - intros k H1 H2 H3. now rewrite !lookup_define_other by congruence.
Qed.

(** X5: the options [listChannels] sends.  The name is the one given as
    an argument; [membersType] is ["team"] unless [options] holds a truthy
    one; every other option is passed through. *)
Theorem listChannels_options_sent (name : string) (options : option object) :
  let sent := listChannels_optionsWithDefaults name options in
  lookup "name" sent = Some (Str name) /\
  lookup "membersType" sent =
    Some (if is_truthy (property (spread options) "membersType")
          then property (spread options) "membersType" else Str "team") /\
  (forall k, k <> "name" -> k <> "membersType" ->
             lookup k sent = lookup k (spread options)).
Proof.
  unfold listChannels_optionsWithDefaults. cbv zeta. repeat split.
  - rewrite lookup_define_other by discriminate. apply lookup_define_same.
  - rewrite lookup_define_same. now destruct options.
  - intros k H1 H2. now rewrite !lookup_define_other by congruence.
Qed.

(** X6: in the arguments of [send], [attach], [download], [react] and
    [delete], what the caller passes as a parameter wins over an option of
    the same name, and every other option is passed through unchanged. *)
Theorem parameters_win_over_options (channel : ChatChannel) (message : ChatMessage)
    (filename output reaction : string) (messageId : number) (options : option object) :
  (lookup "channel" (send_args channel message options) = Some (channel_value channel) /\
   lookup "message" (send_args channel message options)
     = Some (Obj [("body", Str (body message))]) /\
   forall k, k <> "channel" -> k <> "message" ->
     lookup k (send_args channel message options) = lookup k (spread options)) /\
  (lookup "channel" (attach_args channel filename options)
     = Some (channel_value channel) /\
   lookup "filename" (attach_args channel filename options) = Some (Str filename) /\
   forall k, k <> "channel" -> k <> "filename" ->
     lookup k (attach_args channel filename options) = lookup k (spread options)) /\
  (lookup "channel" (download_args channel messageId output options)
     = Some (channel_value channel) /\
   lookup "messageId" (download_args channel messageId output options)
     = Some (Num messageId) /\
   lookup "output" (download_args channel messageId output options)
     = Some (Str output) /\
   forall k, k <> "channel" -> k <> "messageId" -> k <> "output" ->
     lookup k (download_args channel messageId output options)
       = lookup k (spread options)) /\
  (lookup "channel" (react_args channel messageId reaction options)
     = Some (channel_value channel) /\
   lookup "messageId" (react_args channel messageId reaction options)
     = Some (Num messageId) /\
   lookup "message" (react_args channel messageId reaction options)
     = Some (Obj [("body", Str reaction)]) /\
   forall k, k <> "channel" -> k <> "messageId" -> k <> "message" ->
     lookup k (react_args channel messageId reaction options)
       = lookup k (spread options)) /\
  (lookup "channel" (delete_args channel messageId options)
     = Some (channel_value channel) /\
   lookup "messageId" (delete_args channel messageId options) = Some (Num messageId) /\
   forall k, k <> "channel" -> k <> "messageId" ->
     lookup k (delete_args channel messageId options) = lookup k (spread options)).
Proof.
  unfold send_args, attach_args, download_args, react_args, delete_args.
  repeat split; intros;
    rewrite ?lookup_define_same;
    rewrite ?lookup_define_other by (discriminate || congruence);
    rewrite ?lookup_define_same; reflexivity.
Qed.

(** The objects sent stay well formed: when the caller's options name no
    property twice, neither do the options or arguments built from them. *)
Lemma sent_objects_have_distinct_keys (channel : ChatChannel) (message : ChatMessage)
    (name filename output reaction : string) (messageId : number)
    (options : option object) :
  NoDup (map fst (spread options)) ->
  NoDup (map fst (listChannels_optionsWithDefaults name options)) /\
  NoDup (map fst (read_optionsWithDefaults channel options)) /\
  NoDup (map fst (send_args channel message options)) /\
  NoDup (map fst (attach_args channel filename options)) /\
  NoDup (map fst (download_args channel messageId output options)) /\
  NoDup (map fst (react_args channel messageId reaction options)) /\
  NoDup (map fst (delete_args channel messageId options)).
Proof.
  intros H.
  unfold listChannels_optionsWithDefaults, read_optionsWithDefaults, send_args,
    attach_args, download_args, react_args, delete_args.
  repeat split; repeat apply nodup_define; exact H.
Qed.

(** *** What comes back *)

(** X7: [list] and [listChannels] always resolve to something truthy once
    the response is: the response's [conversations] when that is truthy,
    and the empty array otherwise (no such field, [null], ...). *)
Theorem conversations_or_empty (name : string) (options : option object)
    w tr0 w1 tr1 w2 res :
  _guardInitialized w = (tr0, w1, Normal tt) ->
  is_truthy res = true ->
  exists conversations out,
    get res "conversations" = Normal conversations /\
    out = (if is_truthy conversations then conversations else Arr []) /\
    is_truthy out = true /\
    (_runApiCommand (command_of (ReqList options)) w1 = (tr1, w2, Normal res) ->
     chat_list options w = ((tr0 ++ tr1)%list, w2, Normal out)) /\
    (_runApiCommand (command_of (ReqListChannels name options)) w1
       = (tr1, w2, Normal res) ->
     listChannels name options w = ((tr0 ++ tr1)%list, w2, Normal out)).
Proof.
  intros Hg Ht.
  destruct (truthy_readable "conversations" Ht) as [c Hc].
  exists c, (if is_truthy c then c else Arr []).
  split; [exact Hc|]. split; [reflexivity|].
  split; [now destruct (is_truthy c) eqn:E|].
  split; intros Hr; open_request; rewrite Hg; simpl in Hr |- *;
    rewrite Hr, Ht, Hc; simpl; now rewrite ?app_nil_r.
Qed.

Lemma each_forall2 {A B} (f : A -> completion B) items results :
  Forall2 (fun item result => f item = Normal result) items results ->
  each f items = Normal results.
Proof.
  induction 1 as [|item result items results H _ IH]; simpl; [reflexivity|].
  now rewrite H, IH.
Qed.

(** X8: [read] unwraps the messages.  For a response whose [messages] is
    an array of notifications, the result holds the [msg] of each, as many
    as there were and in the same order, beside the response's
    [pagination] as it came. *)
Theorem read_unwraps_messages (channel : ChatChannel) (options : option object)
    w tr0 w1 tr1 w2 res items summaries :
  _guardInitialized w = (tr0, w1, Normal tt) ->
  _runApiCommand (command_of (ReqRead channel options)) w1 = (tr1, w2, Normal res) ->
  is_truthy res = true ->
  get res "messages" = Normal (Arr items) ->
  Forall2 (fun item summary => get item "msg" = Normal summary) items summaries ->
  exists pagination,
    get res "pagination" = Normal pagination /\
    List.length summaries = List.length items /\
    read channel options w =
      ((tr0 ++ tr1)%list, w2,
       Normal (Obj [("pagination", pagination); ("messages", Arr summaries)])).
Proof.
  intros Hg Hr Ht Hm Hall.
  destruct (truthy_readable "pagination" Ht) as [p Hp].
  exists p. split; [exact Hp|].
  split; [symmetry; eapply Forall2_length; exact Hall|].
  open_request. rewrite Hg. simpl in Hr |- *. rewrite Hr, Ht, Hp, Hm. simpl.
  rewrite (each_forall2 _ _ _ Hall). simpl. now rewrite ?app_nil_r.
Qed.

(** X9: [read] needs a [messages] array.  A truthy response whose
    [messages] is anything else (not there, [null], a string, an object),
    or holds a [null] item, makes [read] reject with a TypeError, although
    the command went through. *)
Theorem read_without_messages_fails (channel : ChatChannel) (options : option object)
    w tr0 w1 tr1 w2 res messages :
  _guardInitialized w = (tr0, w1, Normal tt) ->
  _runApiCommand (command_of (ReqRead channel options)) w1 = (tr1, w2, Normal res) ->
  is_truthy res = true ->
  get res "messages" = Normal messages ->
  ((forall items, messages <> Arr items) ->
   read channel options w = ((tr0 ++ tr1)%list, w2, Abrupt (TypeError "map"))) /\
  (forall before following,
     messages = Arr (before ++ Null :: following) ->
     (exists summaries,
        Forall2 (fun item summary => get item "msg" = Normal summary) before summaries) ->
     read channel options w = ((tr0 ++ tr1)%list, w2, Abrupt (TypeError "msg"))).
Proof.
  intros Hg Hr Ht Hm.
  destruct (truthy_readable "pagination" Ht) as [p Hp].
  split.
  - intros Hnot. open_request. rewrite Hg. simpl in Hr |- *. rewrite Hr, Ht, Hp, Hm. simpl.
    destruct messages; simpl; try now rewrite ?app_nil_r.
    now destruct (Hnot items).
  - intros before following -> [summaries Hall].
    open_request. rewrite Hg. simpl in Hr |- *. rewrite Hr, Ht, Hp, Hm. simpl.
    assert (E : each (fun message => get message "msg") (before ++ Null :: following)
                = Abrupt (TypeError "msg")).
    { clear -Hall. induction Hall as [|item summary before summaries H _ IH]; simpl.
      - reflexivity.
      - now rewrite H, IH. }
    rewrite E. simpl. now rewrite ?app_nil_r.
Qed.


(** *** The watch methods *)

(** X11: watching one channel differs from watching all channels only in
    the process invocation, which gets [--filter-channel <json>] appended:
    the binary, the other arguments and the line handlers are the same. *)
Theorem watching_a_channel_only_adds_the_filter (channel : ChatChannel)
    (onMessage : @OnMessage U) onError options w tr0 w1 :
  _guardInitialized w = (tr0, w1, Normal tt) ->
  exists l_all l_one,
    result_of (watchAllChannelsForNewMessages onMessage onError options w)
      = Normal l_all /\
    result_of (watchChannelForNewMessages channel onMessage onError options w)
      = Normal l_one /\
    spawnfile (child l_one) = spawnfile (child l_all) /\
    spawnargs (child l_one) =
      (spawnargs (child l_all)
       ++ ["--filter-channel"; JSON_stringify (formatAPIObjectInput channel "chat")])%list /\
    ~ In "--filter-channel"
         (skipn (List.length (home_prefix (this w1))) (spawnargs (child l_all))) /\
    stdout_on_line l_one = stdout_on_line l_all /\
    stderr_on_line l_one = stderr_on_line l_all.
Proof.
  intros Hg.
  destruct (chatListen_runs onMessage onError None options w1) as [text_all Eall].
  destruct (chatListen_runs onMessage onError (Some channel) options w1) as [text_one Eone].
  do 2 eexists.
  unfold watchAllChannelsForNewMessages, watchChannelForNewMessages.
  rewrite !(bind_normal _ _ Hg), Eall, Eone.
  unfold after, result_of, trace_of, world_of. cbn [fst snd].
  split; [reflexivity|]. split; [reflexivity|].
  unfold spawn. cbn [child spawnargs spawnfile stdout_on_line stderr_on_line].
  split; [reflexivity|].
  rewrite !listen_args_shape. cbn [filter_flag].
  split; [now rewrite app_nil_r, <- !app_assoc|].
  split; [|split; reflexivity].
  rewrite app_nil_r, skipn_app, skipn_all, Nat.sub_diag. simpl.
  destruct (hides_exploding options), (options_showLocal options); simpl;
    intuition discriminate.
Qed.

(** X12: the registry only grows.  [_chatListen] always returns; it adds
    the process it spawned at the end of [_spawnedProcesses], keeps the
    entries that were there, and changes nothing else of the client or of
    the caller's state; two subscriptions in a row leave both processes
    registered, in the order they were made. *)
Theorem chatListen_appends_to_registry (onMessage : @OnMessage U) onError channel options w0 :
  exists l w1,
    result_of (_chatListen onMessage onError channel options w0) = Normal l /\
    world_of (_chatListen onMessage onError channel options w0) = w1 /\
    _spawnedProcesses (this w1) = (_spawnedProcesses (this w0) ++ [child l])%list /\
    username (this w1) = username (this w0) /\
    devicename (this w1) = devicename (this w0) /\
    homeDir (this w1) = homeDir (this w0) /\
    user w1 = user w0 /\
    forall onMessage' onError' channel' options',
    exists l',
      result_of (_chatListen onMessage' onError' channel' options' w1) = Normal l' /\
      _spawnedProcesses
        (this (world_of (_chatListen onMessage' onError' channel' options' w1)))
        = (_spawnedProcesses (this w0) ++ [child l; child l'])%list.
Proof.
  destruct (chatListen_runs onMessage onError channel options w0) as [text E].
  rewrite E. unfold result_of, world_of. cbn [fst snd].
  do 2 eexists. split; [reflexivity|]. split; [reflexivity|].
  cbn [this user username devicename homeDir _spawnedProcesses child].
  repeat (split; [reflexivity|]).
  intros onMessage' onError' channel' options'.
  match goal with
  | |- context [_chatListen _ _ _ _ ?w] =>
      destruct (chatListen_runs onMessage' onError' channel' options' w) as [text' E']
  end.
  rewrite E'. cbn [fst snd]. eexists. split; [reflexivity|].
  cbn [this user username devicename homeDir _spawnedProcesses child].
  now rewrite <- app_assoc.
Qed.

End RequestProperties.

(** ** More on the line handler *)

Section LineHandlerProperties.

Context {U : Type} {env : Collaborators}.

Implicit Types (w : world U) (l : @listener U) (line : string) (tr : list event).

(** X13: the line handler fails only when [onError] does.  Whatever the
    line holds, nothing that goes wrong while it is decoded, filtered or
    delivered leaves the handler: with no [onError] it always returns, and
    with one, an exception that leaves it was thrown by [onError]. *)
Theorem line_handler_fails_only_with_onError (onMessage : @OnMessage U) onError
    options line w :
  (onError = None -> result_of (onLine onMessage onError options line w) = Normal tt) /\
  (forall e,
     result_of (onLine onMessage onError options line w) = Abrupt e ->
     exists f x u, onError = Some f /\ fst (f x u) = Throws e).
Proof.
  rewrite onLine_verdict. unfold after, result_of. simpl.
  assert (C : forall x w',
             (onError = None -> snd (catch_clause onError x w') = Normal tt) /\
             (forall e, snd (catch_clause onError x w') = Abrupt e ->
                        exists f x u, onError = Some f /\ fst (f x u) = Throws e)).
  { intros x w'. destruct onError as [f|].
    - rewrite catch_clause_call. simpl. split; [discriminate|].
      intros e H. exists f, x, (user w').
      destruct (fst (f x (user w'))); try discriminate. now injection H as ->.
    - split; [reflexivity | discriminate]. }
  destruct (verdict_of (this w) options line) as [msg| |x].
  - rewrite settle_deliver. cbv zeta.
    destruct (fst (onMessage msg (user w))); simpl;
      try (split; [reflexivity | discriminate]).
    unfold after, result_of. simpl. apply C.
  - simpl. split; [reflexivity | discriminate].
  - simpl. apply C.
Qed.

(** X14: what one stdout line can cause.  The handler writes the line to
    the log, once, and then calls nothing, or [onMessage] once, or
    [onError] once, or [onMessage] and then [onError] with what
    [onMessage] threw; never anything more. *)
Theorem one_line_one_delivery (onMessage : @OnMessage U) onError options line w :
  exists rest,
    trace_of (onLine onMessage onError options line w)
      = LogInfo ("stdout from listener: " ++ line) :: rest /\
    (rest = [] \/
     (exists msg, rest = [CallMessage msg]) \/
     (exists e, rest = [CallError e]) \/
     (exists msg e, rest = [CallMessage msg; CallError e] /\
                    fst (onMessage msg (user w)) = Throws e)).
Proof.
  rewrite onLine_verdict. unfold after, trace_of. simpl.
  eexists. split; [reflexivity|].
  destruct (verdict_of (this w) options line) as [msg| |x].
  - rewrite settle_deliver. cbv zeta.
    destruct (fst (onMessage msg (user w))) eqn:E; simpl; eauto.
    unfold after, trace_of. simpl.
    destruct onError as [f|]; [rewrite catch_clause_call | rewrite catch_clause_none];
      simpl; eauto 8.
  - simpl. auto.
  - simpl. destruct onError as [f|]; [rewrite catch_clause_call | rewrite catch_clause_none];
      simpl; eauto.
Qed.

(** X15: a notification without a sender is an error, not a message.
    With [showLocal] off and the session's identity set, a document that
    has no [error] field but no [msg] either, or a [msg] without [sender],
    is not delivered: reading the sender throws, and the TypeError goes to
    [onError] when there is one. *)
Theorem unreadable_sender_is_reported (onMessage : @OnMessage U) onError options
    line v name device w :
  decoded line = Some v ->
  success v ->
  options_showLocal options = false ->
  username (this w) = Some name -> devicename (this w) = Some device ->
  name <> "" -> device <> "" ->
  let tr := trace_of (onLine onMessage onError options line w) in
  let reported e := match onError with Some _ => [e] | None => [] end in
  (forall msg,
     get v "msg" = Normal msg -> msg = Undefined \/ msg = Null ->
     message_calls tr = [] /\ error_calls tr = reported (TypeError "sender")) /\
  (forall msg sender,
     get v "msg" = Normal msg -> get msg "sender" = Normal sender ->
     sender = Undefined \/ sender = Null ->
     message_calls tr = [] /\ error_calls tr = reported (TypeError "username")).
Proof.
  intros Hdec Hs Hlocal Hname Hdevice Hn Hd tr reported. subst tr reported.
  rewrite onLine_verdict, (verdict_success _ _ Hdec Hs).
  assert (F : forall e, fire_condition (this w) options v = Abrupt e ->
              message_calls (trace_of
                (after [LogInfo ("stdout from listener: " ++ line)]
                   (settle onMessage onError (Fail e) w))) = [] /\
              error_calls (trace_of
                (after [LogInfo ("stdout from listener: " ++ line)]
                   (settle onMessage onError (Fail e) w)))
                = match onError with Some _ => [e] | None => [] end).
  { intros e _. unfold after, trace_of. simpl.
    destruct onError as [f|]; [rewrite catch_clause_call | rewrite catch_clause_none];
      simpl; auto. }
  apply String.eqb_neq in Hn, Hd.
  split.
  - intros msg Hmsg Hnone.
    assert (E : fire_condition (this w) options v = Abrupt (TypeError "sender")).
    { unfold fire_condition. rewrite Hlocal, Hname, Hdevice. unfold truthy.
      rewrite Hn, Hd. simpl. rewrite Hmsg. simpl. now destruct Hnone as [-> | ->]. }
    rewrite E. now apply F.
  - intros msg sender Hmsg Hsender Hnone.
    assert (E : fire_condition (this w) options v = Abrupt (TypeError "username")).
    { unfold fire_condition. rewrite Hlocal, Hname, Hdevice. unfold truthy.
      rewrite Hn, Hd. simpl. rewrite Hmsg. simpl. rewrite Hsender. simpl.
      now destruct Hnone as [-> | ->]. }
    rewrite E. now apply F.
Qed.

(** X16: the letter case of the session's username does not matter.  Two
    sessions on the same device whose usernames are equal up to case
    decide alike for every document, and so handle every line alike.
    What is used of [toLowerCase] is that it makes the empty string of the
    empty string only. *)
Theorem session_name_case_is_irrelevant (this1 this2 : Chat) name1 name2
    (onMessage : @OnMessage U) onError options :
  (forall s, toLowerCase s = "" <-> s = "") ->
  username this1 = Some name1 -> username this2 = Some name2 ->
  toLowerCase name1 = toLowerCase name2 ->
  devicename this1 = devicename this2 ->
  (forall v, fire_condition this1 options v = fire_condition this2 options v) /\
  (forall line u,
     trace_of (onLine onMessage onError options line {| this := this1; user := u |})
     = trace_of (onLine onMessage onError options line {| this := this2; user := u |}) /\
     result_of (onLine onMessage onError options line {| this := this1; user := u |})
     = result_of (onLine onMessage onError options line {| this := this2; user := u |})).
Proof.
  intros toLowerCase_empty H1 H2 Hlow Hdev.
  assert (F : forall v, fire_condition this1 options v = fire_condition this2 options v).
  { intros v. unfold fire_condition. rewrite H1, H2, <- Hdev, Hlow.
    replace (truthy (Some name1)) with (truthy (Some name2)); [reflexivity|].
    unfold truthy. f_equal.
    destruct (String.eqb name1 "") eqn:E1, (String.eqb name2 "") eqn:E2; try reflexivity.
    - apply String.eqb_eq in E1. apply String.eqb_neq in E2. subst name1.
      rewrite (proj2 (toLowerCase_empty "") eq_refl) in Hlow.
      symmetry in Hlow. apply (proj1 (toLowerCase_empty _)) in Hlow. congruence.
    - apply String.eqb_eq in E2. apply String.eqb_neq in E1. subst name2.
      rewrite (proj2 (toLowerCase_empty "") eq_refl) in Hlow.
      apply (proj1 (toLowerCase_empty _)) in Hlow. congruence. }
  split; [exact F|].
  intros line u. rewrite !onLine_verdict.
  assert (V : verdict_of this1 options line = verdict_of this2 options line).
  { unfold verdict_of. destruct (JSON_parse line) as [v|]; [|reflexivity].
    cbv zeta. now rewrite F. }
  simpl this. rewrite V.
  destruct (verdict_of this2 options line) as [msg| |e].
  - rewrite !settle_deliver. cbv zeta. simpl user.
    destruct (fst (onMessage msg u)); try (split; reflexivity).
    destruct onError as [f|]; [rewrite !catch_clause_call | rewrite !catch_clause_none];
      split; reflexivity.
  - split; reflexivity.
  - unfold settle.
    destruct onError as [f|]; [rewrite !catch_clause_call | rewrite !catch_clause_none];
      split; reflexivity.
Qed.

(** X17: stderr lines do not disturb the deliveries.  However the lines
    of stderr fall between the other events of the child, leaving them out
    changes neither the callback calls, nor the state at the end, nor how
    the run ends. *)
Theorem stderr_does_not_disturb_stdout (onMessage : @OnMessage U) onError channel options
    w0 l :
  result_of (_chatListen onMessage onError channel options w0) = Normal l ->
  forall evs w,
    let others := filter (fun ev => negb (is_stderr ev)) evs in
    calls (trace_of (run l evs w)) = calls (trace_of (run l others w)) /\
    world_of (run l evs w) = world_of (run l others w) /\
    result_of (run l evs w) = result_of (run l others w).
Proof.
  intros H. induction evs as [|ev evs IH]; intros w; [now auto|].
  cbv zeta. cbn [filter].
  destruct (dispatch l ev w) as [[tr1 w1] [[]|e]] eqn:D.
  - destruct (is_stderr ev) eqn:Hev; cbn [negb].
    + destruct ev; try discriminate. simpl in D.
      rewrite (attached_stderr _ _ _ _ _ _ H) in D.
      assert (D' : dispatch l (StderrLine line) w = (tr1, w1, Normal tt))
        by (simpl; now rewrite (attached_stderr _ _ _ _ _ _ H)).
      injection D as <- <-.
      rewrite (run_step _ D').
      destruct (IH w) as (Hc & Hw & Hr).
      unfold after, world_of, result_of, trace_of in *. simpl. auto.
    + rewrite !(run_step _ D).
      destruct (IH w1) as (Hc & Hw & Hr).
      unfold after, world_of, result_of, trace_of in *. simpl.
      rewrite !calls_app, Hc. auto.
  - destruct (is_stderr ev) eqn:Hev; cbn [negb].
    + destruct ev; try discriminate. simpl in D.
      rewrite (attached_stderr _ _ _ _ _ _ H) in D. discriminate.
    + rewrite !(run_stop _ D). auto.
Qed.

Lemma settle_returns (onMessage : @OnMessage U) onError v w :
  (forall x u, returns (fst (onMessage x u))) ->
  (forall f, onError = Some f -> forall e u, returns (fst (f e u))) ->
  exists u,
    settle onMessage onError v w
      = (calls_of_verdict onError v, {| this := this w; user := u |}, Normal tt).
Proof.
  intros Hm He.
  assert (C : forall e w', exists u,
             catch_clause onError e w'
               = (match onError with Some _ => [CallError e] | None => [] end,
                  {| this := this w'; user := u |}, Normal tt)).
  { intros e w'. destruct onError as [f|].
    - specialize (He f eq_refl e (user w')). unfold catch_clause, call.
      destruct (f e (user w')) as [[| e1 | e1] u1]; simpl in He;
        [eexists; reflexivity | eexists; reflexivity | contradiction].
    - exists (user w'). now destruct w'. }
  destruct v as [msg| |e]; simpl calls_of_verdict.
  - eexists. rewrite settle_deliver. cbv zeta.
    specialize (Hm msg (user w)).
    destruct (fst (onMessage msg (user w))); simpl in Hm;
      [reflexivity | reflexivity | contradiction].
  - exists (user w). now destruct w.
  - apply C.
Qed.

(** X18: deliveries follow the lines.  With callbacks that do not throw,
    a run of stdout lines always comes to its end, the client is left as
    it was, and the callback calls are those that each line decides on its
    own, in the order of the lines: the handler keeps nothing from one
    line to the next. *)
Theorem deliveries_follow_the_lines (onMessage : @OnMessage U) onError channel options
    w0 l :
  result_of (_chatListen onMessage onError channel options w0) = Normal l ->
  (forall x u, returns (fst (onMessage x u))) ->
  (forall f, onError = Some f -> forall e u, returns (fst (f e u))) ->
  forall lines w,
    let r := run l (map StdoutLine lines) w in
    result_of r = Normal tt /\
    this (world_of r) = this w /\
    calls (trace_of r) =
      flat_map (fun line => calls_of_verdict onError (verdict_of (this w) options line))
               lines.
Proof.
  intros Hl Hm He. induction lines as [|line lines IH]; intros w; [now auto|].
  cbv zeta.
  change (map StdoutLine (line :: lines)) with (StdoutLine line :: map StdoutLine lines).
  destruct (settle_returns onMessage onError (verdict_of (this w) options line) w Hm He)
    as [u Hs].
  assert (D : dispatch l (StdoutLine line) w =
              (LogInfo ("stdout from listener: " ++ line)
                 :: calls_of_verdict onError (verdict_of (this w) options line),
               {| this := this w; user := u |}, Normal tt)).
  { simpl. rewrite (attached_stdout _ _ _ _ _ _ Hl), onLine_verdict, Hs. reflexivity. }
  rewrite (run_step _ D).
  destruct (IH {| this := this w; user := u |}) as (Hr & Hw & Hc).
  unfold after, world_of, result_of, trace_of in *. simpl in *.
  split; [exact Hr|]. split; [exact Hw|].
  change (LogInfo ("stdout from listener: " ++ line)
            :: (calls_of_verdict onError (verdict_of (this w) options line)
                ++ fst (fst (run l (map StdoutLine lines) {| this := this w; user := u |})))%list)
    with ([LogInfo ("stdout from listener: " ++ line)]
            ++ calls_of_verdict onError (verdict_of (this w) options line)
            ++ fst (fst (run l (map StdoutLine lines) {| this := this w; user := u |})))%list.
  rewrite !calls_app, Hc. simpl. f_equal.
  unfold calls. destruct (verdict_of (this w) options line); simpl; try reflexivity.
  now destruct onError.
Qed.

End LineHandlerProperties.

(** ** The requests at work *)

Import MoreSamples.

(** The session [bot] on [d1] gets its own name back from a sender that
    names no device, and nothing from a payload that names no sender. *)
Example deviceless_sender_is_delivered :
  message_calls (trace_of (onLine counting (Some counting) None deviceless_line
                             (session (Some "bot") (Some "d1"))))
  = [Obj [("sender", Obj [("username", Str "bot")])]].
Proof. reflexivity. Qed.

Example senderless_payload_is_not_delivered :
  message_calls (trace_of (onLine counting (Some counting) None senderless_line
                             (session (Some "bot") (Some "d1"))))
  = [].
Proof. reflexivity. Qed.

Example read_options_sample :
  @read_optionsWithDefaults demo general
    (Some [("peek", Null); ("unreadOnly", Null); ("channel", Str "elsewhere")])
  = [("peek", Bool false); ("unreadOnly", Null);
     ("channel", Obj [("name", Str "general")])].
Proof. reflexivity. Qed.

Example send_args_sample :
  @send_args demo general hello (Some meddling_options)
  = [("channel", Obj [("name", Str "general")]); ("nonblock", Bool true);
     ("message", Obj [("body", Str "hello")])].
Proof. reflexivity. Qed.

Example ToString_sample :
  Api.ToString (Arr [Num "1"; Null; Str "a"; Arr [Bool true; Undefined]])
  = Normal "1,,a,true,".
Proof. reflexivity. Qed.

Lemma every_method_is_guarded_witness :
  @perform nat demo demo_service (@ReqSend demo general hello None) (session None (Some "y"))
  = ([], session None (Some "y"),
     Abrupt (ErrorOf (Str "The client is not yet initialized."))).
Proof.
  exact (proj1 (@every_method_is_guarded nat demo demo_service
                  (session None (Some "y")) [] (session None (Some "y"))
                  (ErrorOf (Str "The client is not yet initialized.")) eq_refl)
           (@ReqSend demo general hello None)).
Defined.

Lemma empty_response_is_an_error_witness :
  @perform nat demo demo_service (@ReqDelete demo general "42" None)
    (session (Some "alice") (Some "y"))
  = ([], {| this := this (session (Some "alice") (Some "y")); user := 1 |},
     Abrupt (ErrorOf (Str "Keybase chat delete returned nothing."))).
Proof.
  exact (@empty_response_is_an_error nat demo demo_service
           (@ReqDelete demo general "42" None) (session (Some "alice") (Some "y"))
           [] (session (Some "alice") (Some "y")) []
           {| this := this (session (Some "alice") (Some "y")); user := 1 |}
           Undefined eq_refl eq_refl eq_refl).
Defined.

Lemma command_failure_is_passed_on_witness :
  @perform nat demo unreachable_service (@ReqJoinChannel demo general)
    (session (Some "alice") (Some "y"))
  = ([], session (Some "alice") (Some "y"), Abrupt (Failure "spawn keybase ENOENT")).
Proof.
  exact (@command_failure_is_passed_on nat demo unreachable_service
           (@ReqJoinChannel demo general) (session (Some "alice") (Some "y"))
           [] (session (Some "alice") (Some "y")) [] (session (Some "alice") (Some "y"))
           (Failure "spawn keybase ENOENT") eq_refl eq_refl).
Defined.

Lemma conversations_or_empty_witness :
  result_of (@chat_list nat demo_service None (session (Some "alice") (Some "y")))
    = Normal (Arr [Obj [("id", Str "c1")]; Obj [("id", Str "c2")]]) /\
  result_of (@listChannels nat demo_service "keybase" None
               (session (Some "alice") (Some "y")))
    = Normal (Arr []).
Proof.
  split.
  - destruct (@conversations_or_empty nat demo demo_service "keybase" None
                (session (Some "alice") (Some "y")) [] (session (Some "alice") (Some "y"))
                [] {| this := this (session (Some "alice") (Some "y")); user := 1 |}
                (Obj [("conversations", Arr [Obj [("id", Str "c1")]; Obj [("id", Str "c2")]])])
                eq_refl eq_refl) as (c & out & Hc & Hout & _ & Hlist & _).
    rewrite (Hlist eq_refl). injection Hc as <-. now subst out.
  - destruct (@conversations_or_empty nat demo demo_service "keybase" None
                (session (Some "alice") (Some "y")) [] (session (Some "alice") (Some "y"))
                [] {| this := this (session (Some "alice") (Some "y")); user := 1 |}
                (Obj []) eq_refl eq_refl) as (c & out & Hc & Hout & _ & _ & Hchannels).
    rewrite (Hchannels eq_refl). injection Hc as <-. now subst out.
Defined.

Lemma read_unwraps_messages_witness :
  result_of (@read nat demo demo_service general None
               (session (Some "alice") (Some "y")))
  = Normal (Obj [("pagination", Obj [("next", Str "n1")]);
                 ("messages", Arr [summary "bob" "x" "hi"; summary "carol" "z" "yo"])]).
Proof.
  assert (Hall : Forall2 (fun item summary => get item "msg" = Normal summary)
                   [Obj [("msg", summary "bob" "x" "hi")];
                    Obj [("msg", summary "carol" "z" "yo")]]
                   [summary "bob" "x" "hi"; summary "carol" "z" "yo"])
    by (repeat constructor).
  destruct (@read_unwraps_messages nat demo demo_service general None
              (session (Some "alice") (Some "y")) [] (session (Some "alice") (Some "y"))
              [] {| this := this (session (Some "alice") (Some "y")); user := 1 |}
              (DemoService.respond (@command_of nat demo demo_service
                                      (@ReqRead demo general None)))
              [Obj [("msg", summary "bob" "x" "hi")]; Obj [("msg", summary "carol" "z" "yo")]]
              [summary "bob" "x" "hi"; summary "carol" "z" "yo"]
              eq_refl eq_refl eq_refl eq_refl Hall)
    as (p & Hp & _ & E).
  rewrite E. injection Hp as <-. reflexivity.
Defined.

Lemma read_without_messages_fails_witness :
  result_of (@read nat demo bare_service general None
               (session (Some "alice") (Some "y")))
  = Abrupt (TypeError "map").
Proof.
  rewrite (proj1 (@read_without_messages_fails nat demo bare_service general None
                    (session (Some "alice") (Some "y")) []
                    (session (Some "alice") (Some "y")) []
                    (session (Some "alice") (Some "y"))
                    (Obj [("ok", Bool true)]) Undefined
                    eq_refl eq_refl eq_refl eq_refl)).
  - reflexivity.
  - intros items. discriminate.
Defined.


Lemma watching_a_channel_only_adds_the_filter_witness :
  exists l_all l_one,
    result_of (@watchAllChannelsForNewMessages nat demo demo_service counting None None
                 (session (Some "alice") (Some "y"))) = Normal l_all /\
    result_of (@watchChannelForNewMessages nat demo demo_service general counting None
                 None (session (Some "alice") (Some "y"))) = Normal l_one /\
    spawnargs (child l_all) = ["chat"; "api-listen"; "--hide-exploding"] /\
    spawnargs (child l_one) =
      ["chat"; "api-listen"; "--hide-exploding"; "--filter-channel";
       "{" ++ Demo.quoted "name" ++ ":" ++ Demo.quoted "general" ++ "}"].
Proof.
  destruct (@watching_a_channel_only_adds_the_filter nat demo demo_service general
              counting None None (session (Some "alice") (Some "y")) []
              (session (Some "alice") (Some "y")) eq_refl)
    as (l_all & l_one & Hall & Hone & _ & Hargs & _).
  exists l_all, l_one. split; [exact Hall|]. split; [exact Hone|].
  assert (E : spawnargs (child l_all) = ["chat"; "api-listen"; "--hide-exploding"]).
  { injection Hall as <-. reflexivity. }
  split; [exact E|]. rewrite Hargs, E. reflexivity.
Defined.

Lemma line_handler_fails_only_with_onError_witness :
  result_of (onLine counting None None malformed_line (session (Some "alice") (Some "y")))
    = Normal tt /\
  result_of (onLine counting (Some failing) None malformed_line
               (session (Some "alice") (Some "y")))
    = Abrupt (Failure "boom").
Proof.
  split.
  - exact (proj1 (@line_handler_fails_only_with_onError nat demo counting None None
                    malformed_line (session (Some "alice") (Some "y"))) eq_refl).
  - reflexivity.
Defined.

Lemma unreadable_sender_is_reported_witness :
  decoded senderless_line = Some senderless_document /\
  error_calls (trace_of (onLine counting (Some counting) None senderless_line
                           (session (Some "alice") (Some "y"))))
    = [TypeError "username"] /\
  message_calls (trace_of (onLine counting (Some counting) None senderless_line
                             (session (Some "alice") (Some "y")))) = [].
Proof.
  split; [reflexivity|].
  assert (Hname : "alice" <> "") by discriminate.
  assert (Hdevice : "y" <> "") by discriminate.
  destruct (proj2 (@unreadable_sender_is_reported nat demo counting (Some counting) None
                     senderless_line senderless_document "alice" "y"
                     (session (Some "alice") (Some "y"))
                     eq_refl eq_refl eq_refl eq_refl eq_refl Hname Hdevice)
              (Obj [("body", Str "hi")]) Undefined eq_refl eq_refl (or_introl eq_refl))
    as [Hm He].
  split; [exact He | exact Hm].
Defined.

Lemma session_name_case_is_irrelevant_witness :
  trace_of (onLine counting (Some counting) None (notification_line "bot" "d1" "echo")
              {| this := {| username := Some "BoT"; devicename := Some "d1";
                            homeDir := None; _spawnedProcesses := [] |};
                 user := 0 |})
  = trace_of (onLine counting (Some counting) None (notification_line "bot" "d1" "echo")
                (session (Some "bot") (Some "d1"))).
Proof.
  exact (proj1 (proj2 (@session_name_case_is_irrelevant nat demo
                         {| username := Some "BoT"; devicename := Some "d1";
                            homeDir := None; _spawnedProcesses := [] |}
                         (this (session (Some "bot") (Some "d1")))
                         "BoT" "bot" counting (Some counting) None
                         demo_toLowerCase_empty eq_refl eq_refl eq_refl eq_refl)
                  (notification_line "bot" "d1" "echo") 0)).
Defined.

Lemma stderr_does_not_disturb_stdout_witness :
  exists l,
    result_of (_chatListen counting (Some counting) None None
                 (session (Some "alice") (Some "y"))) = Normal l /\
    calls (trace_of (run l [StderrLine "warning"; StdoutLine scenario_line;
                            StderrLine (error_line "boom")]
                         (session (Some "alice") (Some "y"))))
    = [CallMessage (summary "bob" "x" "hi")].
Proof.
  eexists. split; [reflexivity|].
  exact (eq_trans
           (proj1 (@stderr_does_not_disturb_stdout nat demo counting (Some counting)
                     None None (session (Some "alice") (Some "y")) _ eq_refl
                     [StderrLine "warning"; StdoutLine scenario_line;
                      StderrLine (error_line "boom")]
                     (session (Some "alice") (Some "y"))))
           eq_refl).
Defined.

Lemma deliveries_follow_the_lines_witness :
  exists l,
    result_of (_chatListen counting (Some counting) None None
                 (session (Some "alice") (Some "y"))) = Normal l /\
    calls (trace_of (run l (map StdoutLine [notification_line "alice" "y" "echo";
                                            scenario_line; malformed_line])
                         (session (Some "alice") (Some "y"))))
    = [CallMessage (summary "bob" "x" "hi"); CallError (SyntaxError malformed_line)].
Proof.
  eexists. split; [reflexivity|].
  exact (eq_trans
           (proj2 (proj2 (@deliveries_follow_the_lines nat demo counting (Some counting)
                            None None (session (Some "alice") (Some "y")) _ eq_refl
                            (fun _ _ => I) (fun _ H _ _ => match H with eq_refl => I end)
                            [notification_line "alice" "y" "echo"; scenario_line;
                             malformed_line]
                            (session (Some "alice") (Some "y")))))
           eq_refl).
Defined.
